(** * load_data.py: fetching and printing the BTCUSDT spot price

    A shallow embedding of [app/load_data.py] and of the parts of the Python
    runtime the script relies on: JSON-shaped values, subscripting, the
    [float] constructor, the default float-to-string conversion, [print] and
    the interpreter's handling of an uncaught exception.  The client of the
    [binance] package is external to the repository; it is modelled as an
    oracle that answers each call, and every call is recorded in a log. *)

From Stdlib Require Import ZArith QArith String Ascii List Bool Lia DecimalString.
From Stdlib Require Import Floats.SpecFloat.
From stdpp Require Import base option list strings gmap.

#[local] Set Warnings "-register-all".
#[local] Open Scope Z_scope.

(** ** Binary64 floating point *)

Module F64.

Definition prec : Z := 53.
Definition emax : Z := 1024.

Definition is_finite (f : spec_float) : bool :=
  match f with
  | S754_zero _ | S754_finite _ _ _ => true
  | S754_infinity _ | S754_nan => false
  end.

(** The sign bit; NaN is given none. *)
Definition sign_bit (f : spec_float) : bool :=
  match f with
  | S754_zero s | S754_infinity s | S754_finite s _ _ => s
  | S754_nan => false
  end.

(** [0 <= f] as an IEEE comparison: false on NaN, true on both zeros. *)
Definition nonneg (f : spec_float) : bool :=
  SFleb (S754_zero false) f.

(** The rational number that a finite float stands for. *)
Definition to_Q (f : spec_float) : option Q :=
  match f with
  | S754_zero _ => Some (0 # 1)%Q
  | S754_finite s m e =>
      let mag :=
        if 0 <=? e then (Z.shiftl (Zpos m) e # 1)%Q
        else (Zpos m # Z.to_pos (Z.shiftl 1 (- e)))%Q in
      Some (if s then Qopp mag else mag)
  | S754_infinity _ | S754_nan => None
  end.

(** The binary64 number nearest to [(-1)^s * N * 10^k], ties to even, as
    a correctly rounded decimal-to-binary conversion produces it.  [N] is
    not negative. *)
Definition of_decimal (s : bool) (N k : Z) : spec_float :=
  match N with
  | Zpos n =>
      match k with
      | Zneg p =>
          let '(mz, ez, lz) :=
            SFdiv_core_binary prec emax (Zpos n) 0 (Z.pow_pos 10 p) 0 in
          binary_round_aux prec emax s mz ez lz
      | _ => binary_round prec emax s (Z.to_pos (Zpos n * 10 ^ k)) 0
      end
  | _ => S754_zero s
  end.

(** The binary64 number nearest to the integer [n], ties to even. *)
Definition of_Z (n : Z) : spec_float :=
  binary_normalize prec emax n 0 false.

(** [m * 2^e = m' * 2^e'] *)
Definition same_value (m : positive) (e : Z) (m' : positive) (e' : Z) : bool :=
  let lo := Z.min e e' in
  Z.shiftl (Zpos m) (e - lo) =? Z.shiftl (Zpos m') (e' - lo).

(** Does the decimal [D * 10^q] read back as [m * 2^e]? *)
Definition reads_back (m : positive) (e : Z) (D q : Z) : bool :=
  match of_decimal false D q with
  | S754_finite _ m' e' => same_value m e m' e'
  | _ => false
  end.

End F64.

(** ** Text of numbers: what [float(str)] accepts

    A Python [str] is modelled by a [string] whose characters stand for the
    code points below 256.  The functions follow CPython's
    [float_from_string]: the text is brought to ASCII, stripped of
    surrounding white space, freed of the underscores that separate digits,
    and then read either as a decimal numeral or as a spelling of infinity
    or NaN; the whole of the text must be consumed. *)

Module NumText.

Definition code (c : ascii) : Z := Z.of_N (N_of_ascii c).

Definition is_digit (c : ascii) : bool := (48 <=? code c) && (code c <=? 57).

Definition digit_val (c : ascii) : Z := code c - 48.

(** [Py_ISSPACE]: blank, tab, line feed, vertical tab, form feed, return. *)
Definition Py_ISSPACE (c : ascii) : bool :=
  ((9 <=? code c) && (code c <=? 13)) || (code c =? 32).

Definition Py_TOLOWER (c : ascii) : ascii :=
  if (65 <=? code c) && (code c <=? 90)
  then ascii_of_N (N_of_ascii c + 32) else c.

(** Of the code points from 127 to 255, only the next-line and the
    no-break space are white space, and none is a decimal digit. *)
Definition is_unicode_space_above_ascii (c : ascii) : bool :=
  (code c =? 133) || (code c =? 160).

(** A text that is not pure ASCII is rewritten character by character:
    white space to a blank, anything else to a question mark, where the
    rewriting stops. *)
Fixpoint transform_to_ascii (l : list ascii) : list ascii :=
  match l with
  | [] => []
  | c :: r =>
      if code c <? 127 then c :: transform_to_ascii r
      else if is_unicode_space_above_ascii c then " "%char :: transform_to_ascii r
      else ["?"%char]
  end.

Definition to_ascii (l : list ascii) : list ascii :=
  if forallb (fun c => code c <? 128) l then l else transform_to_ascii l.

Fixpoint strip_leading (l : list ascii) : list ascii :=
  match l with
  | c :: r => if Py_ISSPACE c then strip_leading r else l
  | [] => []
  end.

(** On the reversed text; the last remaining character is never removed. *)
Fixpoint strip_trailing_rev (l : list ascii) : list ascii :=
  match l with
  | c :: (_ :: _) as r => if Py_ISSPACE c then strip_trailing_rev r else l
  | _ => l
  end.

Definition strip (l : list ascii) : list ascii :=
  rev (strip_trailing_rev (rev (strip_leading l))).

Definition is_underscore (c : ascii) : bool := code c =? 95.

(** An underscore is dropped when it stands between two digits and is an
    error anywhere else; [prev] is the character read last. *)
Fixpoint drop_underscores (prev : ascii) (l : list ascii) : option (list ascii) :=
  match l with
  | [] => if is_underscore prev then None else Some []
  | c :: r =>
      if is_underscore c then
        if is_digit prev then drop_underscores c r else None
      else if is_underscore prev && negb (is_digit c) then None
      else cons c <$> drop_underscores c r
  end.

Definition without_underscores (l : list ascii) : option (list ascii) :=
  if existsb is_underscore l then drop_underscores zero l else Some l.

Fixpoint span_digits (l : list ascii) : list ascii * list ascii :=
  match l with
  | c :: r =>
      if is_digit c then let '(ds, rest) := span_digits r in (c :: ds, rest)
      else ([], l)
  | [] => ([], [])
  end.

Definition digits_value (ds : list ascii) : Z :=
  fold_left (fun acc c => 10 * acc + digit_val c) ds 0.

Definition read_sign (l : list ascii) : bool * list ascii :=
  match l with
  | c :: r =>
      if code c =? 45 then (true, r)
      else if code c =? 43 then (false, r)
      else (false, l)
  | [] => (false, [])
  end.

Definition is_zero_digit (c : ascii) : bool := code c =? 48.

Fixpoint skip_zeros (l : list ascii) : list ascii :=
  match l with
  | c :: r => if is_zero_digit c then skip_zeros r else l
  | [] => []
  end.

Definition MAX_DIGITS : Z := 1000000000.

(** A decimal numeral: sign, digits with at most one point and at least
    one digit, and an optional exponent which has at least one digit.
    The result [(s, N, k)] stands for [(-1)^s * N * 10^k]. *)
Definition read_decimal (l : list ascii) : option (bool * Z * Z) :=
  let '(sign, l1) := read_sign l in
  let '(ip, l2) := span_digits l1 in
  let '(fp, l3) :=
    match l2 with
    | c :: r => if code c =? 46 then span_digits r else ([], l2)
    | [] => ([], l2)
    end in
  let ds := ip ++ fp in
  let fraclen := Z.of_nat (length fp) in
  let ndigits := Z.of_nat (length (skip_zeros ds)) in
  match ds with
  | [] => None
  | _ :: _ =>
      if (MAX_DIGITS <? ndigits) || (MAX_DIGITS <? fraclen) then None
      else
        match l3 with
        | [] => Some (sign, digits_value ds, - fraclen)
        | c :: r =>
            if (code c =? 101) || (code c =? 69) then
              let '(esign, r1) := read_sign r in
              let '(ed, r2) := span_digits r1 in
              match ed, r2 with
              | _ :: _, [] =>
                  let e := digits_value ed in
                  Some (sign, digits_value ds, (if esign then - e else e) - fraclen)
              | _, _ => None
              end
            else None
        end
  end.

Definition lower_is (l : list ascii) (word : string) : bool :=
  bool_decide (map Py_TOLOWER l = list_ascii_of_string word).

(** [inf], [infinity] and [nan] in any mix of cases, with an optional sign. *)
Definition read_inf_or_nan (l : list ascii) : option spec_float :=
  let '(sign, r) := read_sign l in
  if lower_is r "inf" || lower_is r "infinity" then Some (S754_infinity sign)
  else if lower_is r "nan" then Some S754_nan
  else None.

Definition float_of_text (l : list ascii) : option spec_float :=
  match read_decimal l with
  | Some (s, N, k) => Some (F64.of_decimal s N k)
  | None => read_inf_or_nan l
  end.

(** [float(s)] for a string [s]; [None] is the [ValueError]. *)
Definition float_from_string (s : string) : option spec_float :=
  without_underscores (strip (to_ascii (list_ascii_of_string s)))
    ≫= float_of_text.

End NumText.

(** ** The default conversion of a float to text

    [repr] of a float, which [str], [format] with an empty specification
    and therefore an f-string field without one all produce: the shortest
    string of decimal digits that reads back as the same float and, among
    those of that length, the one nearest to it (ties to the even digit);
    laid out with an exponent when the decimal point would fall more than
    16 places right of the first digit or 4 or more places left of it. *)

Module FloatRepr.

(** [m * 2^e] as a fraction. *)
Definition ratio (m : positive) (e : Z) : Z * Z :=
  if 0 <=? e then (Z.shiftl (Zpos m) e, 1) else (Zpos m, Z.shiftl 1 (- e)).

(** [num / den < 10^K] *)
Definition below_pow10 (num den K : Z) : bool :=
  if 0 <=? K then num <? den * 10 ^ K else num * 10 ^ (- K) <? den.

Fixpoint find_decpt (fuel : nat) (num den K : Z) : Z :=
  match fuel with
  | O => K
  | S f => if below_pow10 num den K then K else find_decpt f num den (K + 1)
  end.

(** The [K] with [10^(K-1) <= num/den < 10^K], for a binary64 magnitude. *)
Definition decpt (num den : Z) : Z := find_decpt 700 num den (-330).

(** [(q, r, d)] with [num/den * 10^p = q + r/d] and [0 <= r < d]. *)
Definition scaled (num den p : Z) : Z * Z * Z :=
  let '(a, b) :=
    if 0 <=? p then (num * 10 ^ p, den) else (num, den * 10 ^ (- p)) in
  let '(q, r) := Z.div_eucl a b in
  (q, r, b).

(** The [n]-digit decimal, counted in units of [10^(K-n)], that reads
    back as [m * 2^e]: one of the two that enclose the number, the nearer
    one when both do. *)
Definition candidate (m : positive) (e : Z) (num den K n : Z) : option Z :=
  let '(lo, r, d) := scaled num den (n - K) in
  let hi := lo + 1 in
  let lo_ok := F64.reads_back m e lo (K - n) in
  let hi_ok := negb (r =? 0) && F64.reads_back m e hi (K - n) in
  match lo_ok, hi_ok with
  | true, true =>
      match 2 * r ?= d with
      | Lt => Some lo
      | Gt => Some hi
      | Eq => Some (if Z.even lo then lo else hi)
      end
  | true, false => Some lo
  | false, true => Some hi
  | false, false => None
  end.

(** Tries [n], [n+1], ... digits; 17 digits tell any two binary64
    numbers apart. *)
Fixpoint shortest (fuel : nat) (m : positive) (e : Z) (num den K n : Z) : Z * Z :=
  match fuel with
  | O => (fst (fst (scaled num den (n - K))), n)
  | S f =>
      match candidate m e num den K n with
      | Some D => (D, n)
      | None => shortest f m e num den K (n + 1)
      end
  end.

Definition digits_of (D : Z) : list ascii :=
  list_ascii_of_string (NilZero.string_of_uint (N.to_uint (Z.to_N D))).

Definition strip_trailing_zeros (ds : list ascii) : list ascii :=
  rev (NumText.skip_zeros (rev ds)).

Definition zeros (n : Z) : list ascii := repeat "0"%char (Z.to_nat n).

(** The exponent: a sign and at least two digits. *)
Definition exponent_text (x : Z) : list ascii :=
  let ds := digits_of (Z.abs x) in
  (if x <? 0 then "-"%char else "+"%char)
    :: (if Z.abs x <? 10 then "0"%char :: ds else ds).

(** The digits [ds] with the decimal point [dp] places after the start:
    the value is [0.ds * 10^dp]. *)
Definition layout (ds : list ascii) (dp : Z) : list ascii :=
  if (dp <=? -4) || (16 <? dp) then
    match ds with
    | [] => []
    | d :: rest =>
        d :: (match rest with [] => [] | _ :: _ => "."%char :: rest end)
          ++ "e"%char :: exponent_text (dp - 1)
    end
  else if dp <=? 0 then
    "0"%char :: "."%char :: zeros (- dp) ++ ds
  else if Z.of_nat (length ds) <=? dp then
    ds ++ zeros (dp - Z.of_nat (length ds)) ++ ["."%char; "0"%char]
  else
    take (Z.to_nat dp) ds ++ "."%char :: drop (Z.to_nat dp) ds.

Definition repr_magnitude (m : positive) (e : Z) : list ascii :=
  let '(num, den) := ratio m e in
  let K := decpt num den in
  let '(D, n) := shortest 17 m e num den K 1 in
  let all := digits_of D in
  layout (strip_trailing_zeros all) (K - n + Z.of_nat (length all)).

Definition with_sign (s : bool) (text : string) : string :=
  if s then String "-" text else text.

Definition float_repr (f : spec_float) : string :=
  match f with
  | S754_nan => "nan"
  | S754_infinity s => with_sign s "inf"
  | S754_zero s => with_sign s "0.0"
  | S754_finite s m e => with_sign s (string_of_list_ascii (repr_magnitude m e))
  end.

End FloatRepr.

(** ** Python values, exceptions and the two operations of the script *)

Module Py.

(** What a decoded JSON document can be.  The keys of a JSON object are
    strings, so a [dict] is a finite map from strings. *)
Inductive PyVal :=
| PyNone
| PyBool (b : bool)
| PyInt (n : Z)
| PyFloat (f : spec_float)
| PyStr (s : string)
| PyList (l : list PyVal)
| PyDict (d : gmap string PyVal).

(** [type(v).__name__] *)
Definition type_name (v : PyVal) : string :=
  match v with
  | PyNone => "NoneType"
  | PyBool _ => "bool"
  | PyInt _ => "int"
  | PyFloat _ => "float"
  | PyStr _ => "str"
  | PyList _ => "list"
  | PyDict _ => "dict"
  end.

(** Where a [TypeError] comes from. *)
Variant type_error_site := Subscript | FloatArgument.

(** The exceptions that can reach the script.  The text of the message
    is not modelled; each exception carries what its message is built
    from.  [LibraryError] stands for the exceptions of the client
    package and of the HTTP layer below it, all of them subclasses of
    [Exception], named by their class. *)
Inductive PyExc :=
| KeyError (key : string)
| ValueError (text : string)
| TypeError (site : type_error_site) (operand_type : string)
| OverflowError
| LibraryError (class_name : string) (detail : string).

(** [type(e).__name__] *)
Definition exc_class (e : PyExc) : string :=
  match e with
  | KeyError _ => "KeyError"
  | ValueError _ => "ValueError"
  | TypeError _ _ => "TypeError"
  | OverflowError => "OverflowError"
  | LibraryError c _ => c
  end.

Inductive result (A : Type) :=
| Ok (a : A)
| Raise (e : PyExc).
Arguments Ok {A} a.
Arguments Raise {A} e.

(** [v[key]] for a string [key]: only a [dict] can be subscripted by a
    string, and it must hold the key. *)
Definition subscript (v : PyVal) (key : string) : result PyVal :=
  match v with
  | PyDict d =>
      match d !! key with
      | Some x => Ok x
      | None => Raise (KeyError key)
      end
  | _ => Raise (TypeError Subscript (type_name v))
  end.

(** [float(v)] *)
Definition float (v : PyVal) : result spec_float :=
  match v with
  | PyStr s =>
      match NumText.float_from_string s with
      | Some f => Ok f
      | None => Raise (ValueError s)
      end
  | PyFloat f => Ok f
  | PyInt n =>
      let f := F64.of_Z n in
      if F64.is_finite f then Ok f else Raise OverflowError
  | PyBool b => Ok (F64.of_Z (if b then 1 else 0))
  | PyNone | PyList _ | PyDict _ =>
      Raise (TypeError FloatArgument (type_name v))
  end.

End Py.

Export Py.

(** ** The outside world: the client package, the log of its calls, stdout *)

Module Binance.

(** A call into the client package: the constructor, or the ticker
    method with its [symbol] keyword argument. *)
Inductive Call :=
| NewClient
| GetSymbolTicker (symbol : string).

(** How the package and the quoting service behind it answer a call,
    which may depend on every call made before. *)
Record Service := {
  connect : list Call -> option PyExc;
  ticker : list Call -> string -> result PyVal
}.

(** The object that [Client()] returns. *)
Variant Client := ClientObject.

End Binance.

Export Binance.

Record World := {
  service : Service;
  calls : list Call;
  stdout : string
}.

Definition M (A : Type) : Type := World -> result A * World.

#[global] Instance M_ret : MRet M := fun A a w => (Ok a, w).

#[global] Instance M_bind : MBind M := fun A B k m w =>
  match m w with
  | (Ok a, w') => k a w'
  | (Raise e, w') => (Raise e, w')
  end.

(** A pure operation that may raise. *)
Definition lift {A : Type} (r : result A) : M A := fun w => (r, w).

Definition record (c : Call) (w : World) : World :=
  {| service := service w; calls := calls w ++ [c]; stdout := stdout w |}.

(** [Client()] *)
Definition Client_new : M Client := fun w =>
  (match connect (service w) (calls w) with
   | None => Ok ClientObject
   | Some e => Raise e
   end, record NewClient w).

(** [client.get_symbol_ticker(symbol=...)] *)
Definition get_symbol_ticker (client : Client) (symbol : string) : M PyVal := fun w =>
  (ticker (service w) (calls w) symbol, record (GetSymbolTicker symbol) w).

Definition newline : string := String (ascii_of_nat 10) EmptyString.

(** [print(text)] *)
Definition print (text : string) : M unit := fun w =>
  (Ok (), {| service := service w; calls := calls w;
             stdout := stdout w +:+ text +:+ newline |}).

(** ** The script *)

(** [get_btc_price], given the module's global [client]. *)
Definition get_btc_price (client : Client) : M spec_float :=
  btc_price ← get_symbol_ticker client "BTCUSDT";
  item ← lift (subscript btc_price "price");
  lift (float item).

(** The body of the module, run under the name [name]. *)
Definition load_data (name : string) : M unit :=
  client ← Client_new;
  if String.eqb name "__main__" then
    price ← get_btc_price client;
    print ("Current BTCUSDT " +:+ FloatRepr.float_repr price)
  else
    mret ().

(** ** Running the script as a program *)

(** What the interpreter writes for an exception nobody caught. *)
Variant Report := Traceback (e : PyExc).

Record Process := {
  out : string;
  err : list Report;
  exit_code : Z
}.

Definition boot (svc : Service) : World :=
  {| service := svc; calls := []; stdout := "" |}.

(** [python3 load_data.py]: the module runs as [__main__]; when it ends
    the exit status is 0, and when an exception escapes it the interpreter
    reports the exception on standard error and the exit status is 1. *)
Definition main (svc : Service) : Process :=
  match load_data "__main__" (boot svc) with
  | (Ok _, w) => {| out := stdout w; err := []; exit_code := 0 |}
  | (Raise e, w) => {| out := stdout w; err := [Traceback e]; exit_code := 1 |}
  end.

(** The answer of the service to the request that [get_btc_price] makes
    in the world [w]. *)
Definition response (w : World) : result PyVal :=
  ticker (service w) (calls w) "BTCUSDT".

(** A service that accepts the client and answers every ticker request
    with [r]. *)
Definition answering (r : result PyVal) : Service :=
  {| connect := fun _ => None; ticker := fun _ _ => r |}.

(** The quote [{"symbol": "BTCUSDT", "price": price}]. *)
Definition quote_fields (price : PyVal) : gmap string PyVal :=
  <["symbol" := PyStr "BTCUSDT"]> (<["price" := price]> ∅).

Definition quote (price : PyVal) : PyVal := PyDict (quote_fields price).

(** * Properties *)

(** ** Definitions for the statements *)

#[global] Instance result_ret : MRet result := fun A a => Ok a.

#[global] Instance result_bind : MBind result := fun A B k r =>
  match r with
  | Ok a => k a
  | Raise e => Raise e
  end.

(** The price that [get_btc_price] makes of an answer of the service. *)
Definition price_of (r : result PyVal) : result spec_float :=
  v ← r; item ← subscript v "price"; float item.

(** The world in which the program calls [get_btc_price]. *)
Definition at_fetch (svc : Service) : World := record NewClient (boot svc).

(** The line that the program prints for the price [f]. *)
Definition price_line (f : spec_float) : string :=
  "Current BTCUSDT " +:+ FloatRepr.float_repr f +:+ newline.

Fixpoint count_char (c : ascii) (s : string) : nat :=
  match s with
  | EmptyString => O
  | String a r => (if Ascii.eqb a c then 1 else 0)%nat + count_char c r
  end.

Definition line_feed : ascii := ascii_of_nat 10.

(** The program's world at the fetch when the service accepts the client
    and answers every ticker request with [r]. *)
Definition w_of (r : result PyVal) : World := at_fetch (answering r).

(** Example answers of the service. *)

(** [{"symbol": "BTCUSDT"}] *)
Definition symbol_only : gmap string PyVal := {["symbol" := PyStr "BTCUSDT"]}.

(** [{"symbol": "ETHUSDT", "price": price, "time": 1700000000}] *)
Definition other_fields (price : PyVal) : gmap string PyVal :=
  <["time" := PyInt 1700000000]>
    (<["symbol" := PyStr "ETHUSDT"]> (<["price" := price]> ∅)).

(** The exception the client package raises for a request that failed. *)
Definition request_failed : PyExc :=
  LibraryError "BinanceRequestException" "Invalid Response".

(** A world in which the client has already been asked for five tickers
    and something has been printed. *)
Definition busy_world (r : result PyVal) : World :=
  {| service := answering r;
     calls := NewClient :: repeat (GetSymbolTicker "BTCUSDT") 5;
     stdout := "Current BTCUSDT 1.0" +:+ newline |}.

(** A service whose client cannot be constructed. *)
Definition refusing (e : PyExc) : Service :=
  {| connect := fun _ => Some e; ticker := fun _ _ => Raise e |}.

(** The unsigned fixed-point form in which the service sends a price:
    decimal digits and points only, and at most 300 characters. *)
Definition is_plain_char (c : ascii) : bool :=
  NumText.is_digit c || (NumText.code c =? 46).

Definition plain_numeral (s : string) : bool :=
  forallb is_plain_char (list_ascii_of_string s)
  && (Z.of_nat (length (list_ascii_of_string s)) <=? 300).

(** [repr(float(s))], for the examples below. *)
Definition repr_of_text (s : string) : option string :=
  FloatRepr.float_repr <$> NumText.float_from_string s.


(** The request that [get_btc_price] makes. *)
Definition btc_request : Call := GetSymbolTicker "BTCUSDT".

(** A service whose quoted price is the number of calls made so far. *)
Definition ticking : Service :=
  {| connect := fun _ => None;
     ticker := fun log _ => Ok (quote (PyInt (Z.of_nat (length log)))) |}.

(** A service that answers [r] to the first BTCUSDT request of a fresh
    client and fails on anything else. *)
Definition picky (r : result PyVal) : Service :=
  {| connect := fun log =>
       match log with [] => None | _ :: _ => Some request_failed end;
     ticker := fun log symbol =>
       match log with
       | [NewClient] =>
           if String.eqb symbol "BTCUSDT" then r else Raise request_failed
       | _ => Raise request_failed
       end |}.

(** A text of blanks, tabs and line ends only. *)
Definition is_space_text (s : string) : bool :=
  forallb NumText.Py_ISSPACE (list_ascii_of_string s).

Definition starts_unspaced (l : list ascii) : bool :=
  match l with
  | c :: _ => negb (NumText.Py_ISSPACE c)
  | [] => true
  end.

(** An ASCII text with no white space at either end. *)
Definition is_trimmed_ascii (s : string) : bool :=
  forallb (fun c => NumText.code c <? 128) (list_ascii_of_string s)
  && starts_unspaced (list_ascii_of_string s)
  && starts_unspaced (rev (list_ascii_of_string s)).

(** ** The built-in conversions on known values

    What CPython answers on the same inputs. *)

Example float_accepts :
  map NumText.float_from_string
    [" 1 "; "1_0.5"; ".5"; "5."; "+.5e-3"; "-Inf"; "nAn"; "1e999"; "5e-324";
     "9007199254740993"; "0.1"]
  = [Some (S754_finite false 4503599627370496 (-52));
     Some (S754_finite false 5910974510923776 (-49));
     Some (S754_finite false 4503599627370496 (-53));
     Some (S754_finite false 5629499534213120 (-50));
     Some (S754_finite false 4611686018427388 (-63));
     Some (S754_infinity true);
     Some S754_nan;
     Some (S754_infinity false);
     Some (S754_finite false 1 (-1074));
     Some (S754_finite false 4503599627370496 1);
     Some (S754_finite false 7205759403792794 (-56))].
Proof. vm_compute. reflexivity. Qed.

Example float_rejects :
  map NumText.float_from_string
    [""; " "; "N/A"; "1__0"; "_1"; "1_"; "1_.5"; "."; "1e"; "1e+"; "0x10";
     "1 2"; "infin"; "+-1"; "1e5.0"; "1.2.3"]
  = repeat None 16.
Proof. vm_compute. reflexivity. Qed.

Example float_repr_values :
  map repr_of_text
    ["42000.50"; "0"; "-0"; "1e16"; "1e15"; "0.0001"; "0.00001";
     "0.30000000000000004"; "5e-324"; "1.7976931348623157e308";
     "562949953421312.25"; "123456789012345678"; "1e999"; "-inf"; "nan"]
  = [Some "42000.5"; Some "0.0"; Some "-0.0"; Some "1e+16";
     Some "1000000000000000.0"; Some "0.0001"; Some "1e-05";
     Some "0.30000000000000004"; Some "5e-324"; Some "1.7976931348623157e+308";
     Some "562949953421312.2"; Some "1.2345678901234568e+17"; Some "inf";
     Some "-inf"; Some "nan"].
Proof. vm_compute. reflexivity. Qed.

Example float_of_other_values :
  float (PyInt (2 ^ 53 + 1)) = Ok (S754_finite false 4503599627370496 1)
  /\ float (PyInt (2 ^ 1024 - 2 ^ 970 - 1)) = Ok (S754_finite false 9007199254740991 971)
  /\ float (PyInt (2 ^ 1024 - 2 ^ 970)) = Raise OverflowError
  /\ float (PyBool true) = Ok (S754_finite false 4503599627370496 (-52))
  /\ float (PyFloat S754_nan) = Ok S754_nan
  /\ float PyNone = Raise (TypeError FloatArgument "NoneType")
  /\ float (PyList []) = Raise (TypeError FloatArgument "list").
Proof. repeat split; vm_compute; reflexivity. Qed.

Example subscript_values :
  subscript (quote (PyStr "1")) "price" = Ok (PyStr "1")
  /\ subscript (PyDict symbol_only) "price" = Raise (KeyError "price")
  /\ subscript (PyList []) "price" = Raise (TypeError Subscript "list")
  /\ subscript (PyStr "price") "price" = Raise (TypeError Subscript "str")
  /\ subscript PyNone "price" = Raise (TypeError Subscript "NoneType").
Proof. repeat split; vm_compute; reflexivity. Qed.

(** ** How the script runs *)

Lemma get_btc_price_run (c : Client) (w : World) :
  get_btc_price c w = (price_of (response w), record (GetSymbolTicker "BTCUSDT") w).
Proof.
  unfold get_btc_price, price_of, response, get_symbol_ticker, lift.
  unfold mbind, M_bind, result_bind.
  destruct (ticker (service w) (calls w) "BTCUSDT") as [v | e]; [ | reflexivity ].
  destruct (subscript v "price"); reflexivity.
Qed.

Lemma price_of_dict (d : gmap string PyVal) (p : PyVal) :
  d !! "price" = Some p -> price_of (Ok (PyDict d)) = float p.
Proof.
  intros Hp. unfold price_of, mbind, result_bind, subscript. rewrite Hp. reflexivity.
Qed.

Lemma main_run (svc : Service) :
  connect svc [] = None ->
  main svc =
    match price_of (response (at_fetch svc)) with
    | Ok f => {| out := price_line f; err := []; exit_code := 0 |}
    | Raise e => {| out := ""; err := [Traceback e]; exit_code := 1 |}
    end.
Proof.
  intros Hc. unfold main, load_data, Client_new.
  unfold mbind at 1. unfold M_bind at 1.
  cbn [boot service calls]. rewrite Hc.
  change (String.eqb "__main__" "__main__") with true. cbv iota.
  unfold mbind, M_bind. rewrite get_btc_price_run.
  fold (at_fetch svc).
  destruct (price_of (response (at_fetch svc))) as [f | e]; reflexivity.
Qed.

Lemma main_refused (svc : Service) (e : PyExc) :
  connect svc [] = Some e ->
  main svc = {| out := ""; err := [Traceback e]; exit_code := 1 |}.
Proof.
  intros Hc. unfold main, load_data, Client_new.
  unfold mbind, M_bind. cbn [boot service calls]. rewrite Hc. reflexivity.
Qed.

(** Imported under another name, the module builds its client and does
    nothing else: no ticker is requested and nothing is printed. *)
Lemma load_data_imported (svc : Service) (name : string) :
  name <> "__main__" ->
  connect svc [] = None ->
  load_data name (boot svc) = (Ok (), at_fetch svc).
Proof.
  intros Hn Hc. unfold load_data, Client_new.
  unfold mbind at 1. unfold M_bind at 1.
  cbn [boot service calls]. rewrite Hc.
  apply String.eqb_neq in Hn. rewrite Hn. reflexivity.
Qed.

(** ** The Price Fetcher on the responses the specification names *)

(** C1.  When the answer of the quoting service is a JSON object whose
    [price] field is the string [42000.50], as in
    [{"symbol": "BTCUSDT", "price": "42000.50"}], [get_btc_price] returns
    the float conversion of that field, and this float is exactly 42000.5. *)
Theorem get_btc_price_42000_50 (c : Client) (w : World) (d : gmap string PyVal) :
  response w = Ok (PyDict d) ->
  d !! "price" = Some (PyStr "42000.50") ->
  fst (get_btc_price c w) = float (PyStr "42000.50")
  /\ fst (get_btc_price c w) = Ok (S754_finite false 5772504765300736 (-37))
  /\ exists q : Q,
       F64.to_Q (S754_finite false 5772504765300736 (-37)) = Some q
       /\ (q == 42000.5)%Q.
Proof.
  intros Hr Hp. rewrite get_btc_price_run. cbn [fst].
  rewrite Hr, (price_of_dict d _ Hp).
  split; [ reflexivity | split ].
  - vm_compute. reflexivity.
  - eexists. split; [ vm_compute; reflexivity | reflexivity ].
Qed.

Lemma get_btc_price_42000_50_witness :
  fst (get_btc_price ClientObject (w_of (Ok (quote (PyStr "42000.50")))))
    = Ok (S754_finite false 5772504765300736 (-37)).
Proof.
  refine (proj1 (proj2 (get_btc_price_42000_50 ClientObject
            (w_of (Ok (quote (PyStr "42000.50")))) (quote_fields (PyStr "42000.50")) _ _)));
    vm_compute; reflexivity.
Defined.

(** C2.  When the [price] field is the string [0], [get_btc_price]
    returns the float 0.0: it does not raise, so a zero price is not turned
    into any failure. *)
Theorem get_btc_price_zero (c : Client) (w : World) (d : gmap string PyVal) :
  response w = Ok (PyDict d) ->
  d !! "price" = Some (PyStr "0") ->
  fst (get_btc_price c w) = Ok (S754_zero false)
  /\ (forall e : PyExc, fst (get_btc_price c w) <> Raise e)
  /\ F64.nonneg (S754_zero false) = true.
Proof.
  intros Hr Hp. rewrite get_btc_price_run. cbn [fst].
  rewrite Hr, (price_of_dict d _ Hp).
  assert (H0 : float (PyStr "0") = Ok (S754_zero false)) by (vm_compute; reflexivity).
  rewrite H0. split; [ reflexivity | split; [ intros e; discriminate | reflexivity ] ].
Qed.

Lemma get_btc_price_zero_witness :
  fst (get_btc_price ClientObject (w_of (Ok (quote (PyStr "0"))))) = Ok (S754_zero false).
Proof.
  refine (proj1 (get_btc_price_zero ClientObject
            (w_of (Ok (quote (PyStr "0")))) (quote_fields (PyStr "0")) _ _));
    vm_compute; reflexivity.
Defined.

(** C3, as the specification states it, fails: on the answer
    [{"symbol": "BTCUSDT"}] the exception is a [KeyError], and no exception
    of a class [MalformedResponse] is raised. *)
Lemma missing_price_not_MalformedResponse :
  fst (get_btc_price ClientObject (w_of (Ok (PyDict symbol_only))))
    = Raise (KeyError "price")
  /\ ~ (exists e : PyExc,
          fst (get_btc_price ClientObject (w_of (Ok (PyDict symbol_only)))) = Raise e
          /\ exc_class e = "MalformedResponse").
Proof.
  assert (H : fst (get_btc_price ClientObject (w_of (Ok (PyDict symbol_only))))
              = Raise (KeyError "price")) by (vm_compute; reflexivity).
  split; [ exact H | ].
  intros [e [He Hc]]. rewrite H in He. inversion He; subst e.
  cbn in Hc. discriminate Hc.
Qed.

(** C3, amended.  When the answer of the quoting service is a JSON object
    without a [price] field, [get_btc_price] fails with the [KeyError] that
    the lookup of the key [price] raises. *)
Theorem get_btc_price_missing_price (c : Client) (w : World) (d : gmap string PyVal) :
  response w = Ok (PyDict d) ->
  d !! "price" = None ->
  fst (get_btc_price c w) = Raise (KeyError "price")
  /\ exc_class (KeyError "price") = "KeyError".
Proof.
  intros Hr Hp. rewrite get_btc_price_run. cbn [fst]. rewrite Hr.
  unfold price_of, mbind, result_bind, subscript. rewrite Hp.
  split; reflexivity.
Qed.

Lemma get_btc_price_missing_price_witness :
  fst (get_btc_price ClientObject (w_of (Ok (PyDict symbol_only))))
    = Raise (KeyError "price").
Proof.
  refine (proj1 (get_btc_price_missing_price ClientObject
            (w_of (Ok (PyDict symbol_only))) symbol_only _ _));
    vm_compute; reflexivity.
Defined.

(** An answer that is not a JSON object cannot be subscripted by a string:
    the lookup raises a [TypeError]. *)
Lemma get_btc_price_not_an_object (c : Client) (w : World) (v : PyVal) :
  response w = Ok v ->
  (forall d, v <> PyDict d) ->
  fst (get_btc_price c w) = Raise (TypeError Subscript (type_name v)).
Proof.
  intros Hr Hv. rewrite get_btc_price_run. cbn [fst]. rewrite Hr.
  destruct v; try reflexivity. exfalso. eapply Hv. reflexivity.
Qed.

(** C4, as the specification states it, fails: on the price [N/A] the
    exception is a [ValueError], and no exception of a class
    [MalformedResponse] is raised. *)
Lemma non_numeric_price_not_MalformedResponse :
  fst (get_btc_price ClientObject (w_of (Ok (quote (PyStr "N/A")))))
    = Raise (ValueError "N/A")
  /\ ~ (exists e : PyExc,
          fst (get_btc_price ClientObject (w_of (Ok (quote (PyStr "N/A"))))) = Raise e
          /\ exc_class e = "MalformedResponse").
Proof.
  assert (H : fst (get_btc_price ClientObject (w_of (Ok (quote (PyStr "N/A")))))
              = Raise (ValueError "N/A")) by (vm_compute; reflexivity).
  split; [ exact H | ].
  intros [e [He Hc]]. rewrite H in He. inversion He; subst e.
  cbn in Hc. discriminate Hc.
Qed.

(** C4, amended.  When the [price] field is a string that [float] cannot
    read as a number, [get_btc_price] fails with the [ValueError] that the
    conversion raises for that string. *)
Theorem get_btc_price_non_numeric_price
    (c : Client) (w : World) (d : gmap string PyVal) (s : string) :
  response w = Ok (PyDict d) ->
  d !! "price" = Some (PyStr s) ->
  NumText.float_from_string s = None ->
  fst (get_btc_price c w) = Raise (ValueError s)
  /\ exc_class (ValueError s) = "ValueError".
Proof.
  intros Hr Hp Hs. rewrite get_btc_price_run. cbn [fst].
  rewrite Hr, (price_of_dict d _ Hp). unfold float. rewrite Hs.
  split; reflexivity.
Qed.

Lemma get_btc_price_non_numeric_price_witness :
  fst (get_btc_price ClientObject (w_of (Ok (quote (PyStr "N/A")))))
    = Raise (ValueError "N/A").
Proof.
  refine (proj1 (get_btc_price_non_numeric_price ClientObject
            (w_of (Ok (quote (PyStr "N/A")))) (quote_fields (PyStr "N/A")) "N/A" _ _ _));
    vm_compute; reflexivity.
Defined.

(** ** The printed line *)

Lemma count_char_append (c : ascii) (a b : string) :
  count_char c (a +:+ b) = (count_char c a + count_char c b)%nat.
Proof.
  induction a as [ | x a IH ]; [ reflexivity | ].
  simpl. rewrite IH. lia.
Qed.

Lemma count_char_absent (c : ascii) (l : list ascii) :
  Forall (fun x => x <> c) l -> count_char c (string_of_list_ascii l) = O.
Proof.
  induction 1 as [ | x l Hx _ IH ]; [ reflexivity | ].
  cbn [string_of_list_ascii count_char]. rewrite IH.
  destruct (Ascii.eqb_spec x c); [ contradiction | reflexivity ].
Qed.

Lemma uint_text_no_line_feed (u : Decimal.uint) :
  Forall (fun x => x <> line_feed) (list_ascii_of_string (NilEmpty.string_of_uint u)).
Proof.
  induction u; cbn [NilEmpty.string_of_uint list_ascii_of_string];
    constructor; try assumption; discriminate.
Qed.

Lemma digits_of_no_line_feed (D : Z) :
  Forall (fun x => x <> line_feed) (FloatRepr.digits_of D).
Proof.
  unfold FloatRepr.digits_of, NilZero.string_of_uint.
  destruct (N.to_uint (Z.to_N D)) eqn:E;
    try (rewrite <- E; apply uint_text_no_line_feed).
  repeat constructor. discriminate.
Qed.

Lemma skip_zeros_no_line_feed (l : list ascii) :
  Forall (fun x => x <> line_feed) l ->
  Forall (fun x => x <> line_feed) (NumText.skip_zeros l).
Proof.
  induction 1 as [ | x l Hx Hl IH ]; cbn [NumText.skip_zeros]; [ constructor | ].
  destruct (NumText.is_zero_digit x); [ exact IH | constructor; assumption ].
Qed.

Lemma zeros_no_line_feed (n : Z) :
  Forall (fun x => x <> line_feed) (FloatRepr.zeros n).
Proof.
  unfold FloatRepr.zeros. induction (Z.to_nat n); cbn [repeat]; constructor;
    [ discriminate | assumption ].
Qed.

Lemma exponent_text_no_line_feed (x : Z) :
  Forall (fun c => c <> line_feed) (FloatRepr.exponent_text x).
Proof.
  unfold FloatRepr.exponent_text.
  pose proof (digits_of_no_line_feed (Z.abs x)) as Hd.
  constructor; [ destruct (x <? 0); discriminate | ].
  destruct (Z.abs x <? 10); [ constructor; [ discriminate | exact Hd ] | exact Hd ].
Qed.

Lemma layout_no_line_feed (ds : list ascii) (dp : Z) :
  Forall (fun x => x <> line_feed) ds ->
  Forall (fun x => x <> line_feed) (FloatRepr.layout ds dp).
Proof.
  intros Hds. unfold FloatRepr.layout.
  destruct ((dp <=? -4) || (16 <? dp)).
  - destruct Hds as [ | d rest Hd Hrest ]; [ constructor | ].
    constructor; [ exact Hd | ].
    apply Forall_app. split.
    + destruct Hrest; constructor; [ discriminate | constructor; assumption ].
    + constructor; [ discriminate | apply exponent_text_no_line_feed ].
  - destruct (dp <=? 0).
    + constructor; [ discriminate | ]. constructor; [ discriminate | ].
      apply Forall_app. split; [ apply zeros_no_line_feed | exact Hds ].
    + destruct (Z.of_nat (length ds) <=? dp).
      * apply Forall_app. split; [ exact Hds | ].
        apply Forall_app. split; [ apply zeros_no_line_feed | ].
        repeat constructor; discriminate.
      * apply Forall_app. split; [ apply Forall_take; exact Hds | ].
        constructor; [ discriminate | apply Forall_drop; exact Hds ].
Qed.

Lemma float_repr_one_line (f : spec_float) :
  count_char line_feed (FloatRepr.float_repr f) = O.
Proof.
  destruct f as [ s | s | | s m e ]; cbn [FloatRepr.float_repr];
    try (destruct s; reflexivity); try reflexivity.
  assert (H : count_char line_feed
                (string_of_list_ascii (FloatRepr.repr_magnitude m e)) = O).
  { apply count_char_absent. unfold FloatRepr.repr_magnitude.
    destruct (FloatRepr.ratio m e) as [num den].
    destruct (FloatRepr.shortest 17 m e num den (FloatRepr.decpt num den) 1) as [D n].
    apply layout_no_line_feed. unfold FloatRepr.strip_trailing_zeros.
    apply Forall_rev, skip_zeros_no_line_feed, Forall_rev, digits_of_no_line_feed. }
  destruct s; cbn [FloatRepr.with_sign count_char]; rewrite H; reflexivity.
Qed.

Lemma price_line_one_line (f : spec_float) :
  count_char line_feed (price_line f) = 1%nat.
Proof.
  unfold price_line. rewrite !count_char_append, float_repr_one_line. reflexivity.
Qed.

(** ** The program *)

(** C5.  When the fetch succeeds with the price [f], the program writes to
    standard output the one line [Current BTCUSDT <price>], where the
    price is [f] in the default conversion of a float to text, writes
    nothing to standard error and exits with status 0.  In particular,
    the price string [65432.10] gives the line [Current BTCUSDT 65432.1]. *)
Theorem main_prints_price (svc : Service) (f : spec_float) :
  connect svc [] = None ->
  fst (get_btc_price ClientObject (at_fetch svc)) = Ok f ->
  main svc =
    {| out := "Current BTCUSDT " +:+ FloatRepr.float_repr f +:+ newline;
       err := [];
       exit_code := 0 |}
  /\ count_char line_feed (out (main svc)) = 1%nat
  /\ (forall d : gmap string PyVal,
        response (at_fetch svc) = Ok (PyDict d) ->
        d !! "price" = Some (PyStr "65432.10") ->
        out (main svc) = "Current BTCUSDT 65432.1" +:+ newline).
Proof.
  intros Hc Hf. rewrite get_btc_price_run in Hf. cbn [fst] in Hf.
  pose proof (main_run svc Hc) as Hm. rewrite Hf in Hm.
  split; [ exact Hm | ]. rewrite Hm. cbn [out].
  split; [ apply price_line_one_line | ].
  intros d Hr Hp. rewrite Hr, (price_of_dict d _ Hp) in Hf.
  assert (Hv : float (PyStr "65432.10") = Ok (S754_finite false 8992919347475251 (-37)))
    by (vm_compute; reflexivity).
  rewrite Hv in Hf. injection Hf as <-. vm_compute. reflexivity.
Qed.

Lemma main_prints_price_witness :
  main (answering (Ok (quote (PyStr "65432.10")))) =
    {| out := "Current BTCUSDT 65432.1" +:+ newline; err := []; exit_code := 0 |}.
Proof.
  refine (eq_trans
            (proj1 (main_prints_price (answering (Ok (quote (PyStr "65432.10"))))
                      (S754_finite false 8992919347475251 (-37)) _ _)) _);
    vm_compute; reflexivity.
Defined.

(** C6.  When the fetch fails, be it in the construction of the client or
    in [get_btc_price], whatever the exception, the program ends with a
    status other than 0, the interpreter reports the exception on standard
    error, and nothing is written to standard output. *)
Theorem main_fails_when_fetch_fails (svc : Service) (e : PyExc) :
  connect svc [] = Some e
  \/ (connect svc [] = None
      /\ fst (get_btc_price ClientObject (at_fetch svc)) = Raise e) ->
  main svc = {| out := ""; err := [Traceback e]; exit_code := 1 |}
  /\ exit_code (main svc) <> 0
  /\ err (main svc) <> []
  /\ out (main svc) = "".
Proof.
  intros H.
  assert (Hm : main svc = {| out := ""; err := [Traceback e]; exit_code := 1 |}).
  { destruct H as [Hc | [Hc Hf]].
    - apply main_refused. exact Hc.
    - rewrite get_btc_price_run in Hf. cbn [fst] in Hf.
      rewrite (main_run svc Hc), Hf. reflexivity. }
  rewrite Hm. cbn [exit_code err out].
  split; [ reflexivity | split; [ discriminate | split; [ discriminate | reflexivity ] ] ].
Qed.

Lemma main_fails_when_fetch_fails_witness :
  main (answering (Raise request_failed))
    = {| out := ""; err := [Traceback request_failed]; exit_code := 1 |}
  /\ main (answering (Ok (PyDict symbol_only)))
    = {| out := ""; err := [Traceback (KeyError "price")]; exit_code := 1 |}
  /\ main (refusing request_failed)
    = {| out := ""; err := [Traceback request_failed]; exit_code := 1 |}.
Proof.
  split; [ | split ].
  - refine (proj1 (main_fails_when_fetch_fails
                     (answering (Raise request_failed)) request_failed _)).
    right. split; vm_compute; reflexivity.
  - refine (proj1 (main_fails_when_fetch_fails
                     (answering (Ok (PyDict symbol_only))) (KeyError "price") _)).
    right. split; vm_compute; reflexivity.
  - refine (proj1 (main_fails_when_fetch_fails
                     (refusing request_failed) request_failed _)).
    left. vm_compute. reflexivity.
Defined.

(** ** The fetcher and the world around it *)

(** C8.  A call of [get_btc_price] makes exactly one request, for the
    ticker of BTCUSDT, and changes nothing else in the world; and two calls
    to which the service gives the same answer return the same result,
    whatever was called or printed before either of them. *)
Theorem get_btc_price_one_request (c1 c2 : Client) (w1 w2 : World) :
  response w1 = response w2 ->
  fst (get_btc_price c1 w1) = fst (get_btc_price c2 w2)
  /\ calls (snd (get_btc_price c1 w1)) = calls w1 ++ [GetSymbolTicker "BTCUSDT"]
  /\ calls (snd (get_btc_price c2 w2)) = calls w2 ++ [GetSymbolTicker "BTCUSDT"]
  /\ stdout (snd (get_btc_price c1 w1)) = stdout w1
  /\ stdout (snd (get_btc_price c2 w2)) = stdout w2
  /\ service (snd (get_btc_price c1 w1)) = service w1
  /\ service (snd (get_btc_price c2 w2)) = service w2.
Proof.
  intros Hr. rewrite !get_btc_price_run. cbn [fst snd record calls stdout service].
  rewrite Hr. repeat split; reflexivity.
Qed.

Lemma get_btc_price_one_request_witness :
  fst (get_btc_price ClientObject (w_of (Ok (quote (PyStr "42000.50")))))
    = fst (get_btc_price ClientObject (busy_world (Ok (quote (PyStr "42000.50")))))
  /\ calls (snd (get_btc_price ClientObject (w_of (Ok (quote (PyStr "42000.50"))))))
     = [NewClient; GetSymbolTicker "BTCUSDT"].
Proof.
  pose proof (get_btc_price_one_request ClientObject ClientObject
                (w_of (Ok (quote (PyStr "42000.50"))))
                (busy_world (Ok (quote (PyStr "42000.50")))) eq_refl) as H.
  split; [ exact (proj1 H) | exact (proj1 (proj2 H)) ].
Defined.

(** C9.  The result of [get_btc_price] is determined by the [price] field
    of the answer: two JSON objects with the same [price] field, or both
    without one, give the same result, whatever their other fields. *)
Theorem get_btc_price_price_field_only
    (c : Client) (w1 w2 : World) (d1 d2 : gmap string PyVal) :
  response w1 = Ok (PyDict d1) ->
  response w2 = Ok (PyDict d2) ->
  d1 !! "price" = d2 !! "price" ->
  fst (get_btc_price c w1) = fst (get_btc_price c w2).
Proof.
  intros H1 H2 Hp. rewrite !get_btc_price_run. cbn [fst]. rewrite H1, H2.
  unfold price_of, mbind, result_bind, subscript. rewrite Hp. reflexivity.
Qed.

Lemma get_btc_price_price_field_only_witness :
  fst (get_btc_price ClientObject (w_of (Ok (quote (PyStr "42000.50")))))
    = fst (get_btc_price ClientObject
             (w_of (Ok (PyDict (other_fields (PyStr "42000.50")))))).
Proof.
  refine (get_btc_price_price_field_only ClientObject
            (w_of (Ok (quote (PyStr "42000.50"))))
            (w_of (Ok (PyDict (other_fields (PyStr "42000.50")))))
            (quote_fields (PyStr "42000.50")) (other_fields (PyStr "42000.50"))
            _ _ _); vm_compute; reflexivity.
Defined.

(** C10.  [get_btc_price] handles no exception: the one raised by the
    client call, by the lookup of the key [price] or by the conversion to
    float is the one the caller gets, and the client has then been called
    once and not again. *)
Theorem get_btc_price_propagates (c : Client) (w : World) (e : PyExc) :
  response w = Raise e
  \/ (exists v, response w = Ok v /\ subscript v "price" = Raise e)
  \/ (exists v p, response w = Ok v /\ subscript v "price" = Ok p
                  /\ float p = Raise e) ->
  fst (get_btc_price c w) = Raise e
  /\ calls (snd (get_btc_price c w)) = calls w ++ [GetSymbolTicker "BTCUSDT"].
Proof.
  intros H. rewrite get_btc_price_run. cbn [fst snd record calls].
  split; [ | reflexivity ].
  unfold price_of, mbind, result_bind.
  destruct H as [Hr | [[v [Hr Hs]] | [v [p [Hr [Hs Hf]]]]]]; rewrite Hr.
  - reflexivity.
  - rewrite Hs. reflexivity.
  - rewrite Hs. exact Hf.
Qed.

Lemma get_btc_price_propagates_witness :
  fst (get_btc_price ClientObject (w_of (Raise request_failed))) = Raise request_failed
  /\ fst (get_btc_price ClientObject (w_of (Ok (PyList [])))) = Raise (TypeError Subscript "list")
  /\ fst (get_btc_price ClientObject (w_of (Ok (quote PyNone))))
     = Raise (TypeError FloatArgument "NoneType").
Proof.
  split; [ | split ].
  - refine (proj1 (get_btc_price_propagates ClientObject
                     (w_of (Raise request_failed)) request_failed _)).
    left. vm_compute. reflexivity.
  - refine (proj1 (get_btc_price_propagates ClientObject
                     (w_of (Ok (PyList []))) (TypeError Subscript "list") _)).
    right. left. exists (PyList []). split; vm_compute; reflexivity.
  - refine (proj1 (get_btc_price_propagates ClientObject
                     (w_of (Ok (quote PyNone))) (TypeError FloatArgument "NoneType") _)).
    right. right. exists (quote PyNone), PyNone.
    split; [ | split ]; vm_compute; reflexivity.
Defined.

(** Conversely, a failure of [get_btc_price] is one of those three. *)
Lemma get_btc_price_failure_origin (c : Client) (w : World) (e : PyExc) :
  fst (get_btc_price c w) = Raise e ->
  response w = Raise e
  \/ (exists v, response w = Ok v /\ subscript v "price" = Raise e)
  \/ (exists v p, response w = Ok v /\ subscript v "price" = Ok p
                  /\ float p = Raise e).
Proof.
  rewrite get_btc_price_run. cbn [fst]. unfold price_of, mbind, result_bind.
  destruct (response w) as [v | e0]; [ | intros [= ->]; left; reflexivity ].
  destruct (subscript v "price") as [p | e0] eqn:Hs.
  - intros Hf. right. right. exists v, p. auto.
  - intros [= ->]. right. left. exists v. auto.
Qed.

(** ** Rounding to binary64 stays finite below the overflow threshold *)

Lemma digits2_pos_size (p : positive) : digits2_pos p = Pos.size p.
Proof. induction p; cbn [digits2_pos Pos.size]; congruence. Qed.

Lemma Zdigits2_nonneg (m : Z) : 0 <= Zdigits2 m.
Proof. destruct m; cbn [Zdigits2]; lia. Qed.

(** A non-negative [m] has at most [k] binary digits when [m < 2^k]. *)
Lemma Zdigits2_le (m k : Z) : 0 <= m -> 0 <= k -> m < 2 ^ k -> Zdigits2 m <= k.
Proof.
  intros Hm Hk Hlt. destruct m as [ | p | p ]; cbn [Zdigits2]; [ lia | | lia ].
  rewrite digits2_pos_size.
  destruct (Z.le_gt_cases (Zpos (Pos.size p)) k) as [ | Hgt ]; [ assumption | exfalso ].
  pose proof (Pos.size_le p) as Hs.
  assert (H2 : 2 ^ (k + 1) <= 2 ^ Zpos (Pos.size p))
    by (apply Z.pow_le_mono_r; lia).
  rewrite Z.pow_add_r in H2 by lia. change (2 ^ 1) with 2 in H2.
  assert (Hp : (2 ^ Zpos (Pos.size p) <= Zpos p~0)).
  { rewrite <- Pos2Z.inj_pow. exact Hs. }
  lia.
Qed.

(** And it is below [2^k] when it has at most [k] binary digits. *)
Lemma Zdigits2_lt_pow (m k : Z) : 0 <= m -> Zdigits2 m <= k -> m < 2 ^ k.
Proof.
  intros Hm Hd. destruct m as [ | p | p ]; cbn [Zdigits2] in Hd; [ | | lia ].
  - apply Z.pow_pos_nonneg; lia.
  - rewrite digits2_pos_size in Hd.
    pose proof (Pos.size_gt p) as Hs.
    assert (Hp : Zpos p < 2 ^ Zpos (Pos.size p)).
    { rewrite <- Pos2Z.inj_pow. exact Hs. }
    assert (2 ^ Zpos (Pos.size p) <= 2 ^ k) by (apply Z.pow_le_mono_r; lia).
    lia.
Qed.

Lemma shr_1_m (mrs : shr_record) :
  0 <= shr_m mrs -> shr_m (shr_1 mrs) = shr_m mrs / 2.
Proof.
  destruct mrs as [m r s]. cbn [shr_m]. intros Hm.
  destruct m as [ | [ p | p | ] | p ]; cbn [shr_1 shr_m]; try lia.
  - reflexivity.
  - apply Z.div_unique with 1; lia.
  - apply Z.div_unique with 0; lia.
  - reflexivity.
Qed.

Lemma shr_iter_m (p : positive) (mrs : shr_record) :
  0 <= shr_m mrs ->
  shr_m (SpecFloat.iter_pos shr_1 p mrs) = shr_m mrs / 2 ^ Zpos p.
Proof.
  revert mrs. induction p as [ p IH | p IH | ]; intros mrs Hm; cbn [SpecFloat.iter_pos].
  - assert (H1 : 0 <= shr_m (shr_1 mrs)).
    { rewrite shr_1_m by assumption. apply Z.div_pos; lia. }
    assert (H2 : 0 <= shr_m (SpecFloat.iter_pos shr_1 p (shr_1 mrs))).
    { rewrite IH by assumption. apply Z.div_pos; [ assumption | ].
      apply Z.pow_pos_nonneg; lia. }
    rewrite IH, IH, shr_1_m by assumption.
    rewrite !Z.div_div by (try apply Z.pow_pos_nonneg; lia).
    f_equal.
    replace (Zpos p~1) with (1 + Zpos p + Zpos p) by lia.
    rewrite !Z.pow_add_r by lia. lia.
  - assert (H2 : 0 <= shr_m (SpecFloat.iter_pos shr_1 p mrs)).
    { rewrite IH by assumption. apply Z.div_pos; [ assumption | ].
      apply Z.pow_pos_nonneg; lia. }
    rewrite IH, IH by assumption.
    rewrite !Z.div_div by (try apply Z.pow_pos_nonneg; lia).
    f_equal.
    replace (Zpos p~0) with (Zpos p + Zpos p) by lia.
    rewrite !Z.pow_add_r by lia. lia.
  - rewrite shr_1_m by assumption. reflexivity.
Qed.

Lemma shr_record_of_loc_m (m : Z) (l : location) :
  shr_m (shr_record_of_loc m l) = m.
Proof. destruct l as [ | [ | | ] ]; reflexivity. Qed.

(** One rounding shift: the mantissa stays non-negative and comes below
    [2^53], and the exponent is the larger of the old one and the one
    that the format assigns. *)
Lemma shr_fexp_bounds (m e : Z) (l : location) :
  0 <= m ->
  let '(mrs, e') := shr_fexp F64.prec F64.emax m e l in
  0 <= shr_m mrs < 2 ^ 53
  /\ e' = Z.max e (fexp F64.prec F64.emax (Zdigits2 m + e)).
Proof.
  intros Hm. unfold shr_fexp, shr.
  pose proof (Zdigits2_nonneg m) as Hd0.
  set (d := Zdigits2 m) in *.
  assert (Hlt : m < 2 ^ d) by (apply Zdigits2_lt_pow; [ assumption | subst d; lia ]).
  unfold fexp, emin, F64.prec, F64.emax.
  destruct (Z.max (d + e - 53) (3 - 1024 - 53) - e) as [ | p | p ] eqn:En.
  - rewrite shr_record_of_loc_m. split; [ | lia ].
    split; [ assumption | ].
    assert (2 ^ d <= 2 ^ 53) by (apply Z.pow_le_mono_r; lia). lia.
  - rewrite shr_iter_m by (rewrite shr_record_of_loc_m; assumption).
    rewrite shr_record_of_loc_m. split; [ | lia ].
    split; [ apply Z.div_pos; [ assumption | apply Z.pow_pos_nonneg; lia ] | ].
    apply Z.div_lt_upper_bound; [ apply Z.pow_pos_nonneg; lia | ].
    rewrite <- Z.pow_add_r by lia.
    assert (2 ^ d <= 2 ^ (Zpos p + 53)) by (apply Z.pow_le_mono_r; lia). lia.
  - rewrite shr_record_of_loc_m. split; [ | lia ].
    split; [ assumption | ].
    assert (2 ^ d <= 2 ^ 53) by (apply Z.pow_le_mono_r; lia). lia.
Qed.

Lemma round_nearest_even_bounds (m : Z) (l : location) :
  0 <= m -> m <= round_nearest_even m l <= m + 1.
Proof.
  intros Hm. destruct l as [ | [ | | ] ]; cbn [round_nearest_even]; try lia.
  destruct (Z.even m); lia.
Qed.

(** Rounding a non-negative mantissa whose exponent and magnitude are
    below the overflow threshold gives zero or a finite number, with the
    sign it was given. *)
Lemma binary_round_aux_finite (s : bool) (m e : Z) (l : location) :
  0 <= m -> e <= 970 -> Zdigits2 m + e <= 1023 ->
  F64.is_finite (binary_round_aux F64.prec F64.emax s m e l) = true
  /\ F64.sign_bit (binary_round_aux F64.prec F64.emax s m e l) = s.
Proof.
  intros Hm He Hd. unfold binary_round_aux.
  pose proof (shr_fexp_bounds m e l Hm) as H1.
  destruct (shr_fexp F64.prec F64.emax m e l) as [mrs' e'].
  destruct H1 as [Hm' He'].
  set (m1 := round_nearest_even (shr_m mrs') (loc_of_shr_record mrs')).
  pose proof (round_nearest_even_bounds (shr_m mrs') (loc_of_shr_record mrs')
                (proj1 Hm')) as Hm1.
  fold m1 in Hm1.
  assert (Hm1' : 0 <= m1) by lia.
  pose proof (shr_fexp_bounds m1 e' loc_Exact Hm1') as H2.
  destruct (shr_fexp F64.prec F64.emax m1 e' loc_Exact) as [mrs'' e''].
  destruct H2 as [Hm'' He''].
  assert (Hd1 : Zdigits2 m1 <= 54).
  { apply Zdigits2_le; [ lia | lia | ].
    assert (2 ^ 54 = 2 * 2 ^ 53) by reflexivity. lia. }
  assert (Hfin : e'' <= 971).
  { unfold fexp, emin, F64.prec, F64.emax in He', He''. lia. }
  destruct (shr_m mrs'') as [ | p | p ]; [ split; reflexivity | | lia ].
  unfold F64.emax, F64.prec.
  destruct (Z.leb_spec e'' (1024 - 53)); [ split; reflexivity | lia ].
Qed.

Lemma pos_iter_xO (n d : positive) :
  Zpos (Pos.iter xO n d) = Zpos n * 2 ^ Zpos d.
Proof.
  induction d as [ | d IH ] using Pos.peano_ind.
  - cbn [Pos.iter]. lia.
  - rewrite Pos.iter_succ, Pos2Z.inj_xO, IH, Pos2Z.inj_succ, Z.pow_succ_r; lia.
Qed.

Lemma binary_round_finite (s : bool) (n : positive) :
  Zpos n < 2 ^ 1023 ->
  F64.is_finite (binary_round F64.prec F64.emax s n 0) = true
  /\ F64.sign_bit (binary_round F64.prec F64.emax s n 0) = s.
Proof.
  intros Hn. unfold binary_round, shl_align.
  destruct (fexp F64.prec F64.emax (Zpos (digits2_pos n) + 0) - 0) as [ | d | d ] eqn:Ed.
  - apply binary_round_aux_finite; [ lia | lia | ].
    assert (Zdigits2 (Zpos n) <= 1023) by (apply Zdigits2_le; lia). lia.
  - apply binary_round_aux_finite; [ lia | lia | ].
    assert (Zdigits2 (Zpos n) <= 1023) by (apply Zdigits2_le; lia). lia.
  - assert (He : fexp F64.prec F64.emax (Zpos (digits2_pos n) + 0) = Zneg d) by lia.
    rewrite He.
    apply binary_round_aux_finite; [ lia | lia | ].
    assert (Zdigits2 (Zpos (Pos.iter xO n d)) <= 1023 + Zpos d); [ | lia ].
    apply Zdigits2_le; [ lia | lia | ].
    rewrite pos_iter_xO, Z.pow_add_r by lia.
    apply Z.mul_lt_mono_pos_r; [ apply Z.pow_pos_nonneg; lia | exact Hn ].
Qed.

(** A decimal without a sign, not above [2^1023] and with no positive
    power of ten, converts to zero or to a finite positive number. *)
Lemma of_decimal_finite (N k : Z) :
  0 <= N < 2 ^ 1023 -> k <= 0 ->
  F64.is_finite (F64.of_decimal false N k) = true
  /\ F64.sign_bit (F64.of_decimal false N k) = false.
Proof.
  intros [HN0 HN] Hk. unfold F64.of_decimal.
  destruct N as [ | n | n ]; [ split; reflexivity | | lia ].
  destruct k as [ | p | p ]; [ | lia | ].
  - replace (Z.to_pos (Zpos n * 10 ^ 0)) with n by (cbn; lia).
    apply binary_round_finite. exact HN.
  - unfold SFdiv_core_binary.
    set (e' := Z.min (fexp F64.prec F64.emax
                        (Zdigits2 (Zpos n) + 0 - (Zdigits2 (Z.pow_pos 10 p) + 0)))
                     (0 - 0)).
    assert (He' : e' <= 0) by (subst e'; lia).
    set (m' := match 0 - 0 - e' with
               | 0 => Zpos n
               | Zpos _ => Z.shiftl (Zpos n) (0 - 0 - e')
               | Zneg _ => 0
               end).
    assert (Hm' : 0 <= m' < 2 ^ (1023 - e')).
    { subst m'. destruct (0 - 0 - e') as [ | q | q ] eqn:Es.
      - replace e' with 0 by lia. cbn [Z.sub Z.opp Z.add]. lia.
      - rewrite Z.shiftl_mul_pow2 by lia.
        replace (1023 - e') with (1023 + Zpos q) by lia.
        rewrite Z.pow_add_r by lia.
        assert (0 < 2 ^ Zpos q) by (apply Z.pow_pos_nonneg; lia).
        split; [ lia | ].
        apply Z.mul_lt_mono_pos_r; assumption.
      - lia. }
    assert (H10 : 0 < Z.pow_pos 10 p).
    { change (Z.pow_pos 10 p) with (10 ^ Zpos p). apply Z.pow_pos_nonneg; lia. }
    destruct (Z.div_eucl m' (Z.pow_pos 10 p)) as [q r] eqn:Ediv.
    assert (Hq : q = m' / Z.pow_pos 10 p)
      by (unfold Z.div; rewrite Ediv; reflexivity).
    assert (Hq0 : 0 <= q) by (rewrite Hq; apply Z.div_pos; lia).
    assert (Hqm : q <= m').
    { rewrite Hq. apply Z.div_le_upper_bound; [ lia | nia ]. }
    apply binary_round_aux_finite; [ exact Hq0 | lia | ].
    assert (Zdigits2 q <= 1023 - e'); [ | lia ].
    apply Zdigits2_le; lia.
Qed.

(** ** Plain numerals convert to non-negative finite floats *)

Lemma plain_char_code (c : ascii) :
  is_plain_char c = true -> 46 <= NumText.code c <= 57.
Proof.
  unfold is_plain_char, NumText.is_digit. intros H.
  apply orb_true_iff in H. destruct H as [H | H].
  - apply andb_true_iff in H. destruct H as [H1 H2].
    apply Z.leb_le in H1, H2. lia.
  - apply Z.eqb_eq in H. lia.
Qed.

Lemma forallb_Forall_true {A : Type} (f : A -> bool) (l : list A) :
  forallb f l = true -> Forall (fun x => f x = true) l.
Proof.
  induction l as [ | x l IH ]; cbn [forallb]; intros H; constructor.
  - apply andb_true_iff in H. tauto.
  - apply IH. apply andb_true_iff in H. tauto.
Qed.

Lemma to_ascii_plain (l : list ascii) :
  Forall (fun c => is_plain_char c = true) l -> NumText.to_ascii l = l.
Proof.
  intros Hl. unfold NumText.to_ascii.
  assert (H : forallb (fun c => NumText.code c <? 128) l = true).
  { induction Hl as [ | c l Hc _ IH ]; [ reflexivity | ].
    cbn [forallb]. rewrite IH. apply plain_char_code in Hc.
    destruct (Z.ltb_spec (NumText.code c) 128); [ reflexivity | lia ]. }
  rewrite H. reflexivity.
Qed.

Lemma plain_not_space (c : ascii) :
  is_plain_char c = true -> NumText.Py_ISSPACE c = false.
Proof.
  intros Hc. apply plain_char_code in Hc. unfold NumText.Py_ISSPACE.
  destruct (Z.leb_spec 9 (NumText.code c)); destruct (Z.leb_spec (NumText.code c) 13);
    destruct (Z.eqb_spec (NumText.code c) 32); cbn; try reflexivity; lia.
Qed.

Lemma strip_plain (l : list ascii) :
  Forall (fun c => is_plain_char c = true) l -> NumText.strip l = l.
Proof.
  intros Hl. unfold NumText.strip.
  assert (H1 : NumText.strip_leading l = l).
  { destruct Hl as [ | c l Hc _ ]; [ reflexivity | ].
    cbn [NumText.strip_leading]. rewrite (plain_not_space c Hc). reflexivity. }
  rewrite H1.
  assert (H2 : NumText.strip_trailing_rev (rev l) = rev l).
  { pose proof (Forall_rev Hl) as Hr.
    destruct Hr as [ | c [ | c' r ] Hc _ ]; try reflexivity.
    cbn [NumText.strip_trailing_rev]. rewrite (plain_not_space c Hc). reflexivity. }
  rewrite H2. apply rev_involutive.
Qed.

Lemma without_underscores_plain (l : list ascii) :
  Forall (fun c => is_plain_char c = true) l ->
  NumText.without_underscores l = Some l.
Proof.
  intros Hl. unfold NumText.without_underscores.
  assert (H : existsb NumText.is_underscore l = false).
  { induction Hl as [ | c l Hc _ IH ]; [ reflexivity | ].
    cbn [existsb]. rewrite IH. apply plain_char_code in Hc.
    unfold NumText.is_underscore.
    destruct (Z.eqb_spec (NumText.code c) 95); [ lia | reflexivity ]. }
  rewrite H. reflexivity.
Qed.

Lemma read_sign_plain (l : list ascii) :
  Forall (fun c => is_plain_char c = true) l -> NumText.read_sign l = (false, l).
Proof.
  intros Hl. destruct Hl as [ | c l Hc _ ]; [ reflexivity | ].
  cbn [NumText.read_sign]. apply plain_char_code in Hc.
  destruct (Z.eqb_spec (NumText.code c) 45); [ lia | ].
  destruct (Z.eqb_spec (NumText.code c) 43); [ lia | reflexivity ].
Qed.

Lemma tolower_plain (l : list ascii) :
  Forall (fun c => is_plain_char c = true) l -> map NumText.Py_TOLOWER l = l.
Proof.
  induction 1 as [ | c l Hc _ IH ]; [ reflexivity | ].
  cbn [map]. rewrite IH. f_equal. apply plain_char_code in Hc.
  unfold NumText.Py_TOLOWER.
  destruct (Z.leb_spec 65 (NumText.code c)); [ lia | reflexivity ].
Qed.

Lemma read_inf_or_nan_plain (l : list ascii) :
  Forall (fun c => is_plain_char c = true) l -> NumText.read_inf_or_nan l = None.
Proof.
  intros Hl. unfold NumText.read_inf_or_nan. rewrite (read_sign_plain l Hl).
  unfold NumText.lower_is. rewrite (tolower_plain l Hl).
  assert (Hw : forall w : string,
             forallb is_plain_char (list_ascii_of_string w) = false ->
             bool_decide (l = list_ascii_of_string w) = false).
  { intros w Hw. apply bool_decide_eq_false. intros ->.
    assert (forallb is_plain_char (list_ascii_of_string w) = true); [ | congruence ].
    clear Hw. induction Hl as [ | c l' Hc _ IH ]; [ reflexivity | ].
    cbn [forallb]. rewrite Hc, IH. reflexivity. }
  rewrite !Hw by reflexivity. reflexivity.
Qed.

Lemma span_digits_spec (l ds rest : list ascii) :
  NumText.span_digits l = (ds, rest) ->
  l = ds ++ rest /\ Forall (fun c => NumText.is_digit c = true) ds.
Proof.
  revert ds rest. induction l as [ | c l IH ]; intros ds rest; cbn [NumText.span_digits].
  - intros [= <- <-]. split; [ reflexivity | constructor ].
  - destruct (NumText.is_digit c) eqn:Hc.
    + destruct (NumText.span_digits l) as [ds' rest'].
      intros [= <- <-]. destruct (IH ds' rest' eq_refl) as [-> Hd].
      split; [ reflexivity | constructor; assumption ].
    + intros [= <- <-]. split; [ reflexivity | constructor ].
Qed.

Lemma digits_fold_bound (ds : list ascii) (acc : Z) :
  Forall (fun c => NumText.is_digit c = true) ds -> 0 <= acc ->
  0 <= fold_left (fun a c => 10 * a + NumText.digit_val c) ds acc
    < (acc + 1) * 10 ^ Z.of_nat (length ds).
Proof.
  intros Hd. revert acc. induction Hd as [ | c ds Hc _ IH ]; intros acc Hacc.
  - cbn [fold_left length]. change (10 ^ Z.of_nat 0) with 1. lia.
  - cbn [fold_left length].
    assert (Hv : 0 <= NumText.digit_val c <= 9).
    { unfold NumText.is_digit in Hc. apply andb_true_iff in Hc.
      destruct Hc as [H1 H2]. apply Z.leb_le in H1, H2.
      unfold NumText.digit_val. lia. }
    specialize (IH (10 * acc + NumText.digit_val c) ltac:(lia)).
    rewrite Nat2Z.inj_succ, Z.pow_succ_r by lia.
    assert (0 < 10 ^ Z.of_nat (length ds)) by (apply Z.pow_pos_nonneg; lia).
    nia.
Qed.

Lemma digits_value_bound (ds : list ascii) :
  Forall (fun c => NumText.is_digit c = true) ds ->
  0 <= NumText.digits_value ds < 10 ^ Z.of_nat (length ds).
Proof.
  intros Hd. pose proof (digits_fold_bound ds 0 Hd ltac:(lia)) as H.
  unfold NumText.digits_value. lia.
Qed.

(** A plain numeral that reads as a decimal has no sign, no exponent and
    fewer digits than characters. *)
Lemma read_decimal_plain (l : list ascii) (s : bool) (N k : Z) :
  Forall (fun c => is_plain_char c = true) l ->
  NumText.read_decimal l = Some (s, N, k) ->
  s = false /\ 0 <= N < 10 ^ Z.of_nat (length l) /\ k <= 0.
Proof.
  intros Hl. unfold NumText.read_decimal. rewrite (read_sign_plain l Hl).
  destruct (NumText.span_digits l) as [ip l2] eqn:E1.
  destruct (span_digits_spec l ip l2 E1) as [El Hip].
  assert (Hfp : exists fp l3,
             match l2 with
             | [] => ([], l2)
             | c :: r => if NumText.code c =? 46 then NumText.span_digits r else ([], l2)
             end = (fp, l3)
             /\ Forall (fun c => NumText.is_digit c = true) fp
             /\ (length fp + length l3 <= length l2)%nat
             /\ Forall (fun c => is_plain_char c = true) l3).
  { assert (Hl2 : Forall (fun c => is_plain_char c = true) l2).
    { rewrite El in Hl. apply Forall_app in Hl. tauto. }
    destruct l2 as [ | c r ].
    - exists [], []. repeat split; constructor.
    - destruct (NumText.code c =? 46).
      + destruct (NumText.span_digits r) as [fp l3] eqn:E2.
        destruct (span_digits_spec r fp l3 E2) as [Er Hd].
        exists fp, l3. split; [ reflexivity | ]. split; [ exact Hd | ].
        apply Forall_cons in Hl2. destruct Hl2 as [_ Hr].
        rewrite Er in Hr. apply Forall_app in Hr.
        split; [ | tauto ].
        rewrite Er. cbn [length]. rewrite length_app. lia.
      + exists [], (c :: r). split; [ reflexivity | ]. split; [ constructor | ].
        split; [ cbn [length]; lia | exact Hl2 ]. }
  destruct Hfp as [fp [l3 [-> [Hfd [Hlen Hl3]]]]].
  assert (Hds : Forall (fun c => NumText.is_digit c = true) (ip ++ fp))
    by (apply Forall_app; tauto).
  pose proof (digits_value_bound (ip ++ fp) Hds) as Hb.
  assert (Hle : (length (ip ++ fp) <= length l)%nat).
  { rewrite El, !length_app. lia. }
  assert (Hpow : 10 ^ Z.of_nat (length (ip ++ fp)) <= 10 ^ Z.of_nat (length l))
    by (apply Z.pow_le_mono_r; lia).
  destruct (ip ++ fp) as [ | d ds ] eqn:Eds; [ discriminate | ].
  destruct ((NumText.MAX_DIGITS <? Z.of_nat (length (NumText.skip_zeros (d :: ds))))
            || (NumText.MAX_DIGITS <? Z.of_nat (length fp))); [ discriminate | ].
  destruct Hl3 as [ | c3 r3 Hc3 _ ].
  - intros [= <- <- <-]. split; [ reflexivity | ]. split; lia.
  - apply plain_char_code in Hc3.
    destruct (Z.eqb_spec (NumText.code c3) 101); [ lia | ].
    destruct (Z.eqb_spec (NumText.code c3) 69); [ lia | ].
    discriminate.
Qed.

(** The float that [float] makes of a plain numeral is finite and has no
    sign. *)
Lemma float_from_plain_numeral (s : string) (f : spec_float) :
  plain_numeral s = true ->
  NumText.float_from_string s = Some f ->
  F64.is_finite f = true /\ F64.sign_bit f = false.
Proof.
  unfold plain_numeral. intros Hp Hf.
  apply andb_true_iff in Hp. destruct Hp as [Hall Hlen].
  apply forallb_Forall_true in Hall. apply Z.leb_le in Hlen.
  set (l := list_ascii_of_string s) in *.
  unfold NumText.float_from_string in Hf. fold l in Hf.
  rewrite (to_ascii_plain l Hall), (strip_plain l Hall),
    (without_underscores_plain l Hall) in Hf.
  cbn [mbind option_bind] in Hf. unfold NumText.float_of_text in Hf.
  destruct (NumText.read_decimal l) as [ [ [sg N] k ] | ] eqn:Ed.
  - destruct (read_decimal_plain l sg N k Hall Ed) as [-> [HN Hk]].
    injection Hf as <-.
    apply of_decimal_finite; [ | exact Hk ].
    assert (H10 : 10 ^ Z.of_nat (length l) <= 10 ^ 300)
      by (apply Z.pow_le_mono_r; lia).
    assert (H2 : 10 ^ 300 < 2 ^ 1023) by (vm_compute; reflexivity).
    lia.
  - rewrite (read_inf_or_nan_plain l Hall) in Hf. discriminate.
Qed.

Lemma finite_unsigned_nonneg (f : spec_float) :
  F64.is_finite f = true -> F64.sign_bit f = false -> F64.nonneg f = true.
Proof.
  destruct f as [ s | s | | s m e ]; cbn [F64.is_finite F64.sign_bit];
    try discriminate; intros _ ->; reflexivity.
Qed.

(** ** The range of the returned price *)

(** C7, as the specification states it, fails: the price strings [-1],
    [inf] and [nan] are returned as a negative float, as infinity and as
    NaN. *)
Lemma negative_infinite_nan_prices_returned :
  (fst (get_btc_price ClientObject (w_of (Ok (quote (PyStr "-1")))))
     = Ok (S754_finite true 4503599627370496 (-52))
   /\ F64.nonneg (S754_finite true 4503599627370496 (-52)) = false)
  /\ (fst (get_btc_price ClientObject (w_of (Ok (quote (PyStr "inf")))))
        = Ok (S754_infinity false)
      /\ F64.is_finite (S754_infinity false) = false)
  /\ (fst (get_btc_price ClientObject (w_of (Ok (quote (PyStr "nan")))))
        = Ok S754_nan
      /\ F64.nonneg S754_nan = false
      /\ F64.is_finite S754_nan = false).
Proof. repeat split; vm_compute; reflexivity. Qed.

(** C7, amended.  When [get_btc_price] returns, the answer was a JSON
    object with a [price] field and the value returned is the float
    conversion of that field, whatever its sign and size; it is a
    non-negative finite float when the field is a string of at most 300
    characters made of decimal digits and decimal points only. *)
Theorem get_btc_price_returns_float_of_price (c : Client) (w : World) (f : spec_float) :
  fst (get_btc_price c w) = Ok f ->
  exists (d : gmap string PyVal) (p : PyVal),
    response w = Ok (PyDict d)
    /\ d !! "price" = Some p
    /\ float p = Ok f
    /\ (forall s : string,
          p = PyStr s -> plain_numeral s = true ->
          F64.nonneg f = true /\ F64.is_finite f = true).
Proof.
  rewrite get_btc_price_run. cbn [fst]. unfold price_of, mbind, result_bind.
  destruct (response w) as [v | e]; [ | discriminate ].
  destruct v as [ | b | n | x | s | l | d ]; try discriminate.
  cbn [subscript]. destruct (d !! "price") as [p | ] eqn:Hp; [ | discriminate ].
  intros Hf. exists d, p.
  split; [ reflexivity | ]. split; [ exact Hp | ]. split; [ exact Hf | ].
  intros s -> Hplain. cbn [float] in Hf.
  destruct (NumText.float_from_string s) as [f' | ] eqn:Hs; [ | discriminate ].
  injection Hf as ->.
  destruct (float_from_plain_numeral s f Hplain Hs) as [Hfin Hsign].
  split; [ apply finite_unsigned_nonneg; assumption | exact Hfin ].
Qed.

Lemma get_btc_price_returns_float_of_price_witness :
  exists (d : gmap string PyVal) (p : PyVal),
    response (w_of (Ok (quote (PyStr "42000.50")))) = Ok (PyDict d)
    /\ d !! "price" = Some p
    /\ float p = Ok (S754_finite false 5772504765300736 (-37))
    /\ (forall s : string,
          p = PyStr s -> plain_numeral s = true ->
          F64.nonneg (S754_finite false 5772504765300736 (-37)) = true
          /\ F64.is_finite (S754_finite false 5772504765300736 (-37)) = true).
Proof.
  apply (get_btc_price_returns_float_of_price ClientObject
           (w_of (Ok (quote (PyStr "42000.50"))))
           (S754_finite false 5772504765300736 (-37))).
  vm_compute. reflexivity.
Defined.

(** The three price strings of the specification are plain numerals. *)
Lemma specification_prices_plain :
  plain_numeral "42000.50" = true
  /\ plain_numeral "0" = true
  /\ plain_numeral "65432.10" = true.
Proof. repeat split; vm_compute; reflexivity. Qed.

(** * Further properties of the script *)

(** ** What [get_btc_price] can raise *)

Lemma get_btc_price_not_an_object_witness :
  fst (get_btc_price ClientObject (w_of (Ok (PyList [quote (PyStr "1")]))))
    = Raise (TypeError Subscript "list").
Proof.
  refine (get_btc_price_not_an_object ClientObject
            (w_of (Ok (PyList [quote (PyStr "1")])))
            (PyList [quote (PyStr "1")]) _ _).
  - vm_compute. reflexivity.
  - intros d. discriminate.
Defined.

(** The failures of [float], by the kind of value it is given. *)
Lemma float_failure (p : PyVal) (e : PyExc) :
  float p = Raise e ->
  (exists s, p = PyStr s /\ NumText.float_from_string s = None /\ e = ValueError s)
  \/ (exists n, p = PyInt n /\ F64.is_finite (F64.of_Z n) = false /\ e = OverflowError)
  \/ ((p = PyNone \/ (exists l, p = PyList l) \/ (exists d, p = PyDict d))
      /\ e = TypeError FloatArgument (type_name p)).
Proof.
  destruct p as [ | b | n | x | s | l | d ]; cbn [float].
  - intros [= <-]. right. right. split; [ left; reflexivity | reflexivity ].
  - discriminate.
  - destruct (F64.is_finite (F64.of_Z n)) eqn:Hn; [ discriminate | ].
    intros [= <-]. right. left. exists n. auto.
  - discriminate.
  - destruct (NumText.float_from_string s) eqn:Hs; [ discriminate | ].
    intros [= <-]. left. exists s. auto.
  - intros [= <-]. right. right. split; [ right; left; eauto | reflexivity ].
  - intros [= <-]. right. right. split; [ right; right; eauto | reflexivity ].
Qed.

(** Every exception that leaves [get_btc_price] is the client's own, or the
    [TypeError] of subscripting an answer that is no JSON object, or the
    [KeyError] of an object without a [price], or comes from [float]: a
    [ValueError] for a string that is no number, an [OverflowError] for an
    integer beyond the range of a float, a [TypeError] for [null], an array
    or an object. *)
Theorem get_btc_price_exceptions (c : Client) (w : World) (e : PyExc) :
  fst (get_btc_price c w) = Raise e ->
  response w = Raise e
  \/ (exists v, response w = Ok v /\ (forall d, v <> PyDict d)
                /\ e = TypeError Subscript (type_name v))
  \/ (exists d, response w = Ok (PyDict d) /\ d !! "price" = None
                /\ e = KeyError "price")
  \/ (exists d p, response w = Ok (PyDict d) /\ d !! "price" = Some p
        /\ ((exists s, p = PyStr s /\ NumText.float_from_string s = None
                       /\ e = ValueError s)
            \/ (exists n, p = PyInt n /\ F64.is_finite (F64.of_Z n) = false
                          /\ e = OverflowError)
            \/ ((p = PyNone \/ (exists l, p = PyList l) \/ (exists d', p = PyDict d'))
                /\ e = TypeError FloatArgument (type_name p)))).
Proof.
  intros H. apply get_btc_price_failure_origin in H.
  destruct H as [Hr | [[v [Hr Hs]] | [v [p [Hr [Hs Hf]]]]]].
  - left. exact Hr.
  - destruct v as [ | b | n | x | s | l | d ];
      try (right; left; eexists; split; [ exact Hr | ];
           split; [ intros d'; discriminate | ];
           cbn [subscript] in Hs; injection Hs as <-; reflexivity).
    cbn [subscript] in Hs. destruct (d !! "price") eqn:Hp; [ discriminate | ].
    injection Hs as <-. right. right. left. exists d. auto.
  - destruct v as [ | b | n | x | s | l | d ]; try discriminate.
    cbn [subscript] in Hs. destruct (d !! "price") as [p' | ] eqn:Hp; [ | discriminate ].
    injection Hs as ->. right. right. right. exists d, p.
    split; [ exact Hr | ]. split; [ exact Hp | ]. apply float_failure. exact Hf.
Qed.

Lemma get_btc_price_exceptions_witness :
  response (w_of (Ok (quote (PyInt (10 ^ 400))))) = Raise OverflowError
  \/ (exists v, response (w_of (Ok (quote (PyInt (10 ^ 400))))) = Ok v
                /\ (forall d, v <> PyDict d)
                /\ OverflowError = TypeError Subscript (type_name v))
  \/ (exists d, response (w_of (Ok (quote (PyInt (10 ^ 400))))) = Ok (PyDict d)
                /\ d !! "price" = None /\ OverflowError = KeyError "price")
  \/ (exists d p, response (w_of (Ok (quote (PyInt (10 ^ 400))))) = Ok (PyDict d)
        /\ d !! "price" = Some p
        /\ ((exists s, p = PyStr s /\ NumText.float_from_string s = None
                       /\ OverflowError = ValueError s)
            \/ (exists n, p = PyInt n /\ F64.is_finite (F64.of_Z n) = false
                          /\ OverflowError = OverflowError)
            \/ ((p = PyNone \/ (exists l, p = PyList l) \/ (exists d', p = PyDict d'))
                /\ OverflowError = TypeError FloatArgument (type_name p)))).
Proof.
  apply (get_btc_price_exceptions ClientObject
           (w_of (Ok (quote (PyInt (10 ^ 400))))) OverflowError).
  vm_compute. reflexivity.
Defined.

(** ** The module as a whole *)

(** Imported under any name but [__main__], the module only constructs its
    client: that one call is made, no ticker is requested, nothing is
    printed, and the import fails exactly when the constructor does. *)
Theorem load_data_on_import (svc : Service) (name : string) :
  name <> "__main__" ->
  fst (load_data name (boot svc))
    = match connect svc [] with None => Ok () | Some e => Raise e end
  /\ calls (snd (load_data name (boot svc))) = [NewClient]
  /\ stdout (snd (load_data name (boot svc))) = "".
Proof.
  intros Hn. apply String.eqb_neq in Hn.
  assert (H : load_data name (boot svc)
              = (match connect svc [] with None => Ok () | Some e => Raise e end,
                 at_fetch svc)).
  { unfold load_data, Client_new, mbind, M_bind.
    cbn [boot service calls]. rewrite Hn.
    destruct (connect svc []); reflexivity. }
  rewrite H. repeat split; reflexivity.
Qed.

Lemma load_data_on_import_witness :
  fst (load_data "app.load_data" (boot (answering (Ok (quote (PyStr "1"))))))
    = Ok ()
  /\ calls (snd (load_data "app.load_data" (boot (answering (Ok (quote (PyStr "1")))))))
     = [NewClient]
  /\ stdout (snd (load_data "app.load_data" (boot (answering (Ok (quote (PyStr "1")))))))
     = "".
Proof.
  apply (load_data_on_import (answering (Ok (quote (PyStr "1")))) "app.load_data").
  discriminate.
Defined.

(** Run as a program, the module calls the client package in a fixed
    order: the constructor first, then the ticker of BTCUSDT, once; and the
    ticker is never requested when the constructor has failed. *)
Theorem program_calls (svc : Service) :
  calls (snd (load_data "__main__" (boot svc)))
    = NewClient
        :: match connect svc [] with
           | None => [GetSymbolTicker "BTCUSDT"]
           | Some _ => []
           end.
Proof.
  unfold load_data, Client_new. unfold mbind at 1. unfold M_bind at 1.
  cbn [boot service calls].
  destruct (connect svc []) as [e | ]; [ reflexivity | ].
  change (String.eqb "__main__" "__main__") with true. cbv iota.
  unfold mbind, M_bind. rewrite get_btc_price_run.
  destruct (price_of _); reflexivity.
Qed.

(** A run of the program ends in one of two ways and in no other: with
    status 0, nothing on standard error and the one line of the fetched
    price on standard output; or with status 1, one report on standard
    error and nothing on standard output. *)
Theorem main_outcomes (svc : Service) :
  (exit_code (main svc) = 0
   /\ err (main svc) = []
   /\ exists f : spec_float,
        connect svc [] = None
        /\ fst (get_btc_price ClientObject (at_fetch svc)) = Ok f
        /\ out (main svc) = "Current BTCUSDT " +:+ FloatRepr.float_repr f +:+ newline)
  \/ (exit_code (main svc) = 1
      /\ out (main svc) = ""
      /\ exists e : PyExc, err (main svc) = [Traceback e]).
Proof.
  destruct (connect svc []) as [e | ] eqn:Hc.
  - right. rewrite (main_refused svc e Hc). cbn. eauto.
  - rewrite (main_run svc Hc), get_btc_price_run. cbn [fst].
    destruct (price_of (response (at_fetch svc))) as [f | e].
    + left. cbn. split; [ reflexivity | ]. split; [ reflexivity | ].
      exists f. auto.
    + right. cbn. eauto.
Qed.

(** What the program does is decided by two answers of the service: the
    one to the constructor, and the one to the BTCUSDT ticker requested
    right after it.  Services that agree on these two give the same
    output, reports and exit status. *)
Theorem main_two_answers (svc1 svc2 : Service) :
  connect svc1 [] = connect svc2 [] ->
  ticker svc1 [NewClient] "BTCUSDT" = ticker svc2 [NewClient] "BTCUSDT" ->
  main svc1 = main svc2.
Proof.
  intros Hc Ht.
  assert (Hr : response (at_fetch svc1) = response (at_fetch svc2)) by exact Ht.
  destruct (connect svc1 []) as [e | ] eqn:H1.
  - rewrite (main_refused svc1 e H1), (main_refused svc2 e (eq_sym Hc)). reflexivity.
  - rewrite (main_run svc1 H1), (main_run svc2 (eq_sym Hc)), Hr. reflexivity.
Qed.

Lemma main_two_answers_witness :
  main (answering (Ok (quote (PyStr "42000.50"))))
    = main (picky (Ok (quote (PyStr "42000.50")))).
Proof.
  apply (main_two_answers (answering (Ok (quote (PyStr "42000.50"))))
           (picky (Ok (quote (PyStr "42000.50"))))); reflexivity.
Defined.

(** ** Calling the fetcher again *)

(** Nothing is kept from one call to the next: a second call asks the
    service again, and what it returns is made of the second answer, not
    of the first. *)
Theorem get_btc_price_twice
    (c : Client) (w : World) (d1 d2 : gmap string PyVal) (p1 p2 : PyVal) :
  response w = Ok (PyDict d1) ->
  ticker (service w) (calls w ++ [GetSymbolTicker "BTCUSDT"]) "BTCUSDT"
    = Ok (PyDict d2) ->
  d1 !! "price" = Some p1 ->
  d2 !! "price" = Some p2 ->
  fst (get_btc_price c w) = float p1
  /\ fst (get_btc_price c (snd (get_btc_price c w))) = float p2
  /\ calls (snd (get_btc_price c (snd (get_btc_price c w))))
     = calls w ++ [GetSymbolTicker "BTCUSDT"; GetSymbolTicker "BTCUSDT"].
Proof.
  intros Hr1 Hr2 Hp1 Hp2. rewrite !get_btc_price_run. cbn [fst snd].
  split; [ rewrite Hr1; apply price_of_dict; exact Hp1 | ].
  split.
  - unfold response. cbn [record service calls]. rewrite Hr2.
    apply price_of_dict. exact Hp2.
  - cbn [record calls]. rewrite <- app_assoc. reflexivity.
Qed.

Lemma get_btc_price_twice_witness :
  fst (get_btc_price ClientObject (at_fetch ticking))
    = Ok (S754_finite false 4503599627370496 (-52))
  /\ fst (get_btc_price ClientObject (snd (get_btc_price ClientObject (at_fetch ticking))))
     = Ok (S754_finite false 4503599627370496 (-51))
  /\ calls (snd (get_btc_price ClientObject
                   (snd (get_btc_price ClientObject (at_fetch ticking)))))
     = [NewClient; GetSymbolTicker "BTCUSDT"; GetSymbolTicker "BTCUSDT"].
Proof.
  exact (get_btc_price_twice ClientObject (at_fetch ticking)
           (quote_fields (PyInt 1)) (quote_fields (PyInt 2)) (PyInt 1) (PyInt 2)
           eq_refl eq_refl eq_refl eq_refl).
Defined.

(** ** A price sent as a JSON integer *)

Lemma of_Z_finite (n : Z) :
  - 2 ^ 1023 < n < 2 ^ 1023 ->
  F64.is_finite (F64.of_Z n) = true /\ F64.sign_bit (F64.of_Z n) = (n <? 0).
Proof.
  intros Hn. unfold F64.of_Z, binary_normalize.
  destruct n as [ | p | p ]; [ split; reflexivity | | ].
  - apply binary_round_finite. lia.
  - apply binary_round_finite. lia.
Qed.

(** An integer price below [2^1023] in magnitude is converted without an
    exception, to a finite float with the sign of the integer. *)
Theorem get_btc_price_integer_price
    (c : Client) (w : World) (d : gmap string PyVal) (n : Z) :
  response w = Ok (PyDict d) ->
  d !! "price" = Some (PyInt n) ->
  - 2 ^ 1023 < n < 2 ^ 1023 ->
  exists f : spec_float,
    fst (get_btc_price c w) = Ok f
    /\ F64.is_finite f = true
    /\ F64.sign_bit f = (n <? 0).
Proof.
  intros Hr Hp Hn. rewrite get_btc_price_run. cbn [fst].
  rewrite Hr, (price_of_dict d _ Hp). cbn [float].
  destruct (of_Z_finite n Hn) as [Hfin Hsign].
  rewrite Hfin. exists (F64.of_Z n). auto.
Qed.

Lemma get_btc_price_integer_price_witness :
  exists f : spec_float,
    fst (get_btc_price ClientObject (w_of (Ok (quote (PyInt (-42000)))))) = Ok f
    /\ F64.is_finite f = true
    /\ F64.sign_bit f = true.
Proof.
  apply (get_btc_price_integer_price ClientObject
           (w_of (Ok (quote (PyInt (-42000))))) (quote_fields (PyInt (-42000)))
           (-42000)); [ reflexivity | reflexivity | ].
  split; vm_compute; reflexivity.
Defined.

Lemma digits2_pos_iter_xO (p k : positive) :
  Zpos (digits2_pos (Pos.iter xO p k)) = Zpos (digits2_pos p) + Zpos k.
Proof.
  induction k as [ | k IH ] using Pos.peano_ind.
  - cbn [Pos.iter digits2_pos]. lia.
  - rewrite Pos.iter_succ. cbn [digits2_pos]. lia.
Qed.

(** A mantissa of 53 digits with an exponent in range is a float as it
    stands: rounding changes nothing. *)
Lemma binary_round_aux_exact (s : bool) (m : positive) (e : Z) :
  Zpos (digits2_pos m) = 53 -> -1074 <= e <= 971 ->
  binary_round_aux F64.prec F64.emax s (Zpos m) e loc_Exact = S754_finite s m e.
Proof.
  intros Hd He.
  assert (H0 : fexp F64.prec F64.emax (Zdigits2 (Zpos m) + e) - e = 0).
  { cbn [Zdigits2]. rewrite Hd. unfold fexp, emin, F64.prec, F64.emax. lia. }
  unfold binary_round_aux, shr_fexp. rewrite H0.
  cbn [shr shr_record_of_loc shr_m loc_of_shr_record round_nearest_even].
  rewrite H0. cbn [shr shr_record_of_loc shr_m].
  unfold F64.emax, F64.prec.
  destruct (Z.leb_spec e (1024 - 53)); [ reflexivity | lia ].
Qed.

Lemma binary_round_small (s : bool) (p : positive) :
  Zpos p < 2 ^ 53 ->
  exists (m : positive) (e : Z),
    binary_round F64.prec F64.emax s p 0 = S754_finite s m e
    /\ -52 <= e <= 0
    /\ Zpos m = Zpos p * 2 ^ (- e).
Proof.
  intros Hp.
  assert (Hd : 1 <= Zpos (digits2_pos p) <= 53).
  { split; [ lia | ]. apply (Zdigits2_le (Zpos p) 53); lia. }
  unfold binary_round, shl_align.
  assert (Hf : fexp F64.prec F64.emax (Zpos (digits2_pos p) + 0)
               = Zpos (digits2_pos p) - 53).
  { unfold fexp, emin, F64.prec, F64.emax. lia. }
  rewrite Hf.
  destruct (Zpos (digits2_pos p) - 53 - 0) as [ | k | k ] eqn:Ek; [ | lia | ].
  - exists p, 0. split; [ | split; [ lia | cbn; lia ] ].
    apply binary_round_aux_exact; lia.
  - exists (Pos.iter xO p k), (Zpos (digits2_pos p) - 53).
    split; [ | split; [ lia | ] ].
    + apply binary_round_aux_exact; [ | lia ].
      rewrite digits2_pos_iter_xO. lia.
    + rewrite pos_iter_xO. f_equal. f_equal. lia.
Qed.

Lemma to_Q_of_exact (s : bool) (m : positive) (e n : Z) :
  -52 <= e <= 0 -> Zpos m = n * 2 ^ (- e) ->
  exists q : Q,
    F64.to_Q (S754_finite s m e) = Some q
    /\ (q == (if s then - n else n) # 1)%Q.
Proof.
  intros He Hm. cbn [F64.to_Q]. eexists. split; [ reflexivity | ].
  assert (H2 : 0 < 2 ^ (- e)) by (apply Z.pow_pos_nonneg; lia).
  destruct (Z.leb_spec 0 e) as [H0 | H0].
  - assert (e = 0) by lia. subst e. change (2 ^ (- 0)) with 1 in Hm.
    rewrite Z.shiftl_0_r.
    destruct s; unfold Qeq; cbn [Qopp Qnum Qden]; lia.
  - rewrite Z.shiftl_1_l.
    destruct s; unfold Qeq; cbn [Qopp Qnum Qden];
      rewrite Z2Pos.id by lia; lia.
Qed.

(** An integer price below [2^53] in magnitude is converted exactly: the
    float returned stands for the same number. *)
Theorem get_btc_price_small_integer_exact
    (c : Client) (w : World) (d : gmap string PyVal) (n : Z) :
  response w = Ok (PyDict d) ->
  d !! "price" = Some (PyInt n) ->
  - 2 ^ 53 < n < 2 ^ 53 ->
  exists (f : spec_float) (q : Q),
    fst (get_btc_price c w) = Ok f
    /\ F64.to_Q f = Some q
    /\ (q == n # 1)%Q.
Proof.
  intros Hr Hp Hn. rewrite get_btc_price_run. cbn [fst].
  rewrite Hr, (price_of_dict d _ Hp). cbn [float].
  assert (Hbig : - 2 ^ 1023 < n < 2 ^ 1023).
  { assert (2 ^ 53 < 2 ^ 1023) by (apply Z.pow_lt_mono_r; lia). lia. }
  destruct (of_Z_finite n Hbig) as [Hfin _]. rewrite Hfin.
  exists (F64.of_Z n).
  unfold F64.of_Z, binary_normalize.
  destruct n as [ | p | p ].
  - exists (0 # 1)%Q. split; [ reflexivity | ]. split; reflexivity.
  - destruct (binary_round_small false p ltac:(lia)) as [m [e [-> [He Hm]]]].
    destruct (to_Q_of_exact false m e (Zpos p) He Hm) as [q [Hq Heq]].
    exists q. split; [ reflexivity | ]. split; assumption.
  - destruct (binary_round_small true p ltac:(lia)) as [m [e [-> [He Hm]]]].
    destruct (to_Q_of_exact true m e (Zpos p) He Hm) as [q [Hq Heq]].
    exists q. split; [ reflexivity | ]. split; [ exact Hq | exact Heq ].
Qed.

Lemma get_btc_price_small_integer_exact_witness :
  exists (f : spec_float) (q : Q),
    fst (get_btc_price ClientObject (w_of (Ok (quote (PyInt 42000))))) = Ok f
    /\ F64.to_Q f = Some q
    /\ (q == 42000 # 1)%Q.
Proof.
  apply (get_btc_price_small_integer_exact ClientObject
           (w_of (Ok (quote (PyInt 42000)))) (quote_fields (PyInt 42000)) 42000);
    [ reflexivity | reflexivity | ].
  split; vm_compute; reflexivity.
Defined.

(** ** White space around the price *)

Lemma list_ascii_of_append (a b : string) :
  list_ascii_of_string (a +:+ b) = list_ascii_of_string a ++ list_ascii_of_string b.
Proof.
  induction a as [ | c a IH ]; [ reflexivity | ].
  simpl. rewrite IH. reflexivity.
Qed.

Lemma space_is_ascii (l : list ascii) :
  forallb NumText.Py_ISSPACE l = true ->
  forallb (fun c => NumText.code c <? 128) l = true.
Proof.
  induction l as [ | c l IH ]; [ reflexivity | ].
  cbn [forallb]. intros H. apply andb_true_iff in H. destruct H as [Hc Hl].
  rewrite (IH Hl), andb_true_r. unfold NumText.Py_ISSPACE in Hc.
  destruct (Z.ltb_spec (NumText.code c) 128); [ reflexivity | exfalso ].
  destruct (Z.leb_spec (NumText.code c) 13); [ lia | ].
  destruct (Z.eqb_spec (NumText.code c) 32); [ lia | ].
  rewrite andb_false_r in Hc. discriminate.
Qed.

Lemma strip_leading_spaces (ws x : list ascii) :
  forallb NumText.Py_ISSPACE ws = true ->
  NumText.strip_leading (ws ++ x) = NumText.strip_leading x.
Proof.
  induction ws as [ | c ws IH ]; [ reflexivity | ].
  cbn [forallb app NumText.strip_leading]. intros H.
  apply andb_true_iff in H. destruct H as [-> Hws]. exact (IH Hws).
Qed.

Lemma strip_leading_unspaced (x : list ascii) :
  starts_unspaced x = true -> NumText.strip_leading x = x.
Proof.
  destruct x as [ | c x ]; [ reflexivity | ].
  cbn [starts_unspaced NumText.strip_leading]. intros H.
  apply negb_true_iff in H. rewrite H. reflexivity.
Qed.

Lemma strip_trailing_rev_unspaced (y : list ascii) :
  starts_unspaced y = true -> NumText.strip_trailing_rev y = y.
Proof.
  destruct y as [ | c [ | c' y ] ]; try reflexivity.
  cbn [starts_unspaced NumText.strip_trailing_rev]. intros H.
  apply negb_true_iff in H. rewrite H. reflexivity.
Qed.

Lemma strip_trailing_rev_spaces (ws y : list ascii) :
  forallb NumText.Py_ISSPACE ws = true -> y <> [] ->
  NumText.strip_trailing_rev (ws ++ y) = NumText.strip_trailing_rev y.
Proof.
  intros Hws Hy. induction ws as [ | c ws IH ]; [ reflexivity | ].
  cbn [forallb] in Hws. apply andb_true_iff in Hws. destruct Hws as [Hc Hws].
  cbn [app]. destruct (ws ++ y) as [ | c' r ] eqn:E.
  - apply app_eq_nil in E. destruct E as [_ E]. contradiction.
  - cbn [NumText.strip_trailing_rev]. rewrite Hc. exact (IH Hws).
Qed.

(** Stripping a non-empty trimmed text padded with white space gives the
    text back. *)
Lemma strip_padded (la ls lb : list ascii) :
  forallb NumText.Py_ISSPACE la = true ->
  forallb NumText.Py_ISSPACE lb = true ->
  starts_unspaced ls = true -> starts_unspaced (rev ls) = true ->
  ls <> [] ->
  NumText.strip (la ++ ls ++ lb) = ls.
Proof.
  intros Ha Hb H1 H2 Hne. unfold NumText.strip.
  rewrite (strip_leading_spaces la _ Ha).
  assert (Hh : starts_unspaced (ls ++ lb) = true).
  { destruct ls; [ contradiction | exact H1 ]. }
  rewrite (strip_leading_unspaced _ Hh), rev_app_distr.
  assert (Hrb : forallb NumText.Py_ISSPACE (rev lb) = true).
  { apply forallb_forall. intros c Hc. apply in_rev in Hc.
    revert c Hc. apply forallb_forall. exact Hb. }
  assert (Hrn : rev ls <> []).
  { intros E. apply Hne. rewrite <- (rev_involutive ls), E. reflexivity. }
  rewrite (strip_trailing_rev_spaces _ _ Hrb Hrn),
    (strip_trailing_rev_unspaced _ H2).
  apply rev_involutive.
Qed.

(** Blanks, tabs and line ends around an ASCII price text make no
    difference to the number read: the fetcher returns what it returns
    for the bare text, and when the bare text is no number the
    [ValueError] carries the text as it was sent. *)
Theorem get_btc_price_padded_price
    (c : Client) (w : World) (d : gmap string PyVal) (a s b : string) :
  response w = Ok (PyDict d) ->
  d !! "price" = Some (PyStr (a +:+ s +:+ b)) ->
  is_space_text a = true ->
  is_space_text b = true ->
  is_trimmed_ascii s = true ->
  s <> "" ->
  fst (get_btc_price c w)
    = match NumText.float_from_string s with
      | Some f => Ok f
      | None => Raise (ValueError (a +:+ s +:+ b))
      end.
Proof.
  intros Hr Hp Ha Hb Hs Hne. rewrite get_btc_price_run. cbn [fst].
  rewrite Hr, (price_of_dict d _ Hp). cbn [float].
  unfold is_trimmed_ascii in Hs. apply andb_true_iff in Hs.
  destruct Hs as [Hs H2]. apply andb_true_iff in Hs. destruct Hs as [Hasc H1].
  unfold is_space_text in Ha, Hb.
  assert (Hnl : list_ascii_of_string s <> []).
  { intros E. apply Hne. destruct s; [ reflexivity | discriminate ]. }
  assert (E : NumText.float_from_string (a +:+ s +:+ b)
              = NumText.float_from_string s).
  { unfold NumText.float_from_string. rewrite !list_ascii_of_append.
    set (la := list_ascii_of_string a) in *.
    set (ls := list_ascii_of_string s) in *.
    set (lb := list_ascii_of_string b) in *.
    assert (Hall : forallb (fun c => NumText.code c <? 128) (la ++ ls ++ lb) = true).
    { rewrite !forallb_app, (space_is_ascii la Ha), (space_is_ascii lb Hb), Hasc.
      reflexivity. }
    unfold NumText.to_ascii. rewrite Hall, Hasc.
    rewrite (strip_padded la ls lb Ha Hb H1 H2 Hnl).
    replace (NumText.strip ls) with ls; [ reflexivity | ].
    symmetry. pose proof (strip_padded [] ls [] eq_refl eq_refl H1 H2 Hnl) as H.
    rewrite app_nil_r in H. exact H. }
  rewrite E. reflexivity.
Qed.

Lemma get_btc_price_padded_price_witness :
  fst (get_btc_price ClientObject
         (w_of (Ok (quote (PyStr ("  " +:+ "42000.50" +:+ newline))))))
    = Ok (S754_finite false 5772504765300736 (-37)).
Proof.
  refine (eq_trans
            (get_btc_price_padded_price ClientObject
               (w_of (Ok (quote (PyStr ("  " +:+ "42000.50" +:+ newline)))))
               (quote_fields (PyStr ("  " +:+ "42000.50" +:+ newline)))
               "  " "42000.50" newline _ _ _ _ _ _) _);
    try (vm_compute; reflexivity).
  discriminate.
Defined.
